(** * consoler: a shallow embedding of [consoler/console.py]

    The module under study is a console logging facade: six leveled emit
    methods on a [Logger] object, a raw [buffer] write, an animated
    [progress] line, and the stand-alone text normaliser [decode].

    The embedding keeps the shape of the Python source:
    - Python text is a list of Unicode code points, bytes are [Byte.byte]s;
    - the values a caller may pass are the inductive [pyval];
    - exceptions are an error result [res];
    - what a method writes to the terminal or hands to loguru is recorded as
      a trace of [event]s, threaded by a small writer-and-error monad [M];
    - the only mutable fields, [spindex] and [writing_progress], are passed
      explicitly through [progress];
    - the limits of the interpreter on the size of a string are a parameter,
      [Machine], so that building a bar too long for it raises;
    - [LOG_LEVELS] is a finite map. *)

From Stdlib Require Import ZArith NArith List Bool Lia.
From Stdlib.Strings Require Import String Ascii Byte.
From Stdlib Require Import DecimalString.
From Corelib Require Import SpecFloat.
From stdpp Require Import base option list gmap.

Set Warnings "-register-all".
Local Open Scope Z_scope.

(** ** Python text *)

Module PyText.

(** A Python [str] is a sequence of Unicode code points. *)
Definition pystr : Type := list N.
Definition pybytes : Type := list byte.

(** ASCII literals of the source, written as Rocq strings. *)
Definition u (s : string) : pystr :=
  List.map N_of_ascii (list_ascii_of_string s).

(** [str.isspace] for one code point (CPython's [_PyUnicode_IsWhitespace]). *)
Definition is_space (c : N) : bool :=
  ((9 <=? c) && (c <=? 13) || (28 <=? c) && (c <=? 32)
   || (c =? 133) || (c =? 160) || (c =? 5760)
   || (8192 <=? c) && (c <=? 8202)
   || (c =? 8232) || (c =? 8233) || (c =? 8239) || (c =? 8287)
   || (c =? 12288))%N.

Fixpoint lstrip (s : pystr) : pystr :=
  match s with
  | c :: t => if is_space c then lstrip t else s
  | [] => []
  end.

Definition rstrip (s : pystr) : pystr := rev (lstrip (rev s)).

(** [s.strip()] *)
Definition strip (s : pystr) : pystr := rstrip (lstrip s).

(** [s * n]: a count of zero or less gives the empty string. *)
Definition repeat_str (s : pystr) (n : Z) : pystr :=
  concat (repeat s (Z.to_nat n)).

Fixpoint is_prefix (p s : pystr) : bool :=
  match p, s with
  | [], _ => true
  | a :: p', b :: s' => (a =? b)%N && is_prefix p' s'
  | _ :: _, [] => false
  end.

(** [replace_from skip old new s]: the scan of [str.replace], where [skip]
    counts the characters of a match that are still to be dropped. *)
Fixpoint replace_from (skip : nat) (old new s : pystr) : pystr :=
  match s with
  | [] => []
  | c :: t =>
      match skip with
      | S k => replace_from k old new t
      | O =>
          if is_prefix old s
          then new ++ replace_from (Nat.pred (length old)) old new t
          else c :: replace_from O old new t
      end
  end.

(** [s.replace(old, new)]; an empty [old] matches before every character
    and at the end. *)
Definition replace (s old new : pystr) : pystr :=
  match old with
  | [] => new ++ flat_map (fun c => c :: new) s
  | _ :: _ => replace_from O old new s
  end.

(** [str(n)] for an [int]. *)
Definition str_of_Z (z : Z) : pystr :=
  u (NilZero.string_of_int (Z.to_int z)).

Definition hex_digit (n : N) : N :=
  (if n <? 10 then 48 + n else 87 + n)%N.

(** One byte of [repr(bytes)] with [q] the quote in use. *)
Definition repr_byte (q : N) (b : N) : pystr :=
  (if (b =? q) || (b =? 92) then [92; b]
   else if b =? 9 then [92; 116]
   else if b =? 10 then [92; 110]
   else if b =? 13 then [92; 114]
   else if (b <? 32) || (127 <=? b) then
     [92; 120; hex_digit (b / 16); hex_digit (b mod 16)]
   else [b])%N.

Definition has_byte (c : N) (bs : list N) : bool :=
  existsb (N.eqb c) bs.

(** [str(b)] of a [bytes] object is its [repr]: [b'...'], with double
    quotes when the bytes hold a single quote and no double quote. *)
Definition repr_bytes (bs : pybytes) : pystr :=
  let ns := List.map Byte.to_N bs in
  let q := (if has_byte 39 ns && negb (has_byte 34 ns) then 34 else 39)%N in
  98%N :: q :: flat_map (repr_byte q) ns ++ [q].

End PyText.
Export PyText.

(** ** Codecs *)

Module Codec.

Inductive encoding := UTF8 | Latin1 | ASCII.

Definition is_cont (b : N) : bool := ((128 <=? b) && (b <=? 191))%N.
Definition between (lo b hi : N) : bool := ((lo <=? b) && (b <=? hi))%N.
Definition low6 (b : N) : N := N.land b 63.

(** Strict UTF-8: shortest forms only, no surrogates, nothing above
    U+10FFFF. *)
Fixpoint utf8_decode (bs : list N) : option pystr :=
  match bs with
  | [] => Some []
  | b0 :: t0 =>
      if (b0 <? 128)%N then cons b0 <$> utf8_decode t0
      else if between 194 b0 223 then
        match t0 with
        | b1 :: t1 =>
            if is_cont b1
            then cons (N.shiftl (N.land b0 31) 6 + low6 b1)%N <$> utf8_decode t1
            else None
        | _ => None
        end
      else if between 224 b0 239 then
        match t0 with
        | b1 :: b2 :: t2 =>
            if between (if (b0 =? 224)%N then 160 else 128) b1
                       (if (b0 =? 237)%N then 159 else 191)
               && is_cont b2
            then cons (N.shiftl (N.land b0 15) 12
                       + N.shiftl (low6 b1) 6 + low6 b2)%N <$> utf8_decode t2
            else None
        | _ => None
        end
      else if between 240 b0 244 then
        match t0 with
        | b1 :: b2 :: b3 :: t3 =>
            if between (if (b0 =? 240)%N then 144 else 128) b1
                       (if (b0 =? 244)%N then 143 else 191)
               && is_cont b2 && is_cont b3
            then cons (N.shiftl (N.land b0 7) 18 + N.shiftl (low6 b1) 12
                       + N.shiftl (low6 b2) 6 + low6 b3)%N <$> utf8_decode t3
            else None
        | _ => None
        end
      else None
  end.

(** Latin-1 maps every byte to the code point of the same number. *)
Definition latin1_decode (bs : list N) : option pystr := Some bs.

Definition ascii_decode (bs : list N) : option pystr :=
  if forallb (fun b => (b <? 128)%N) bs then Some bs else None.

(** [bytes.decode(enc)]; [None] stands for [UnicodeDecodeError]. *)
Definition bytes_decode (enc : encoding) (bs : pybytes) : option pystr :=
  let ns := List.map Byte.to_N bs in
  match enc with
  | UTF8 => utf8_decode ns
  | Latin1 => latin1_decode ns
  | ASCII => ascii_decode ns
  end.

End Codec.
Export Codec.

(** ** Exceptions and values *)

(** The exceptions that occur; all of them derive from [Exception], so an
    [except Exception] clause catches every one. *)
Inductive exn :=
| KeyError | IndexError | TypeError | ValueError | OverflowError
| AttributeError | UnicodeDecodeError | RuntimeError | MemoryError.

Inductive res (A : Type) : Type :=
| Ok (a : A)
| Raise (e : exn).
Arguments Ok {A} a.
Arguments Raise {A} e.

(** The values a caller can hand to the logger.  [PObj] is any other object,
    given by what the logger can observe of it: the outcome of [str(o)], its
    truth value, and its [decode] method when it has one. *)
Inductive pyval :=
| PNone
| PBool (b : bool)
| PInt (z : Z)
| PStr (s : pystr)
| PBytes (bs : pybytes)
| PObj (o_str : res pystr) (o_bool : bool)
       (o_decode : option (encoding -> res pyval)).

(** [str(v)], which is also what [format] and f-strings interpolate. *)
Definition py_str (v : pyval) : res pystr :=
  match v with
  | PNone => Ok (u "None")
  | PBool true => Ok (u "True")
  | PBool false => Ok (u "False")
  | PInt z => Ok (str_of_Z z)
  | PStr s => Ok s
  | PBytes bs => Ok (repr_bytes bs)
  | PObj o_str _ _ => o_str
  end.

(** Truth value, as tested by [extra if extra else '']. *)
Definition py_truthy (v : pyval) : bool :=
  match v with
  | PNone => false
  | PBool b => b
  | PInt z => negb (z =? 0)
  | PStr s => negb (Nat.eqb (length s) 0)
  | PBytes bs => negb (Nat.eqb (length bs) 0)
  | PObj _ b _ => b
  end.

(** [val.decode(enc)]: only [bytes] and objects that define the method have
    it; everything else raises [AttributeError]. *)
Definition val_decode (val : pyval) (enc : encoding) : res pyval :=
  match val with
  | PBytes bs =>
      match bytes_decode enc bs with
      | Some s => Ok (PStr s)
      | None => Raise UnicodeDecodeError
      end
  | PObj _ _ (Some f) => f enc
  | _ => Raise AttributeError
  end.

(** [try: return a  except Exception: b] *)
Definition try_except {A} (a : res A) (b : res A) : res A :=
  match a with
  | Ok x => Ok x
  | Raise _ => b
  end.

Definition pystr_eqb (a b : pystr) : bool := bool_decide (a = b).

(** [decode(val)] *)
Definition decode (val : pyval) : res pyval :=
  match val with
  | PNone => Ok PNone
  | _ =>
      match py_str val with
      | Raise e => Raise e
      | Ok s =>
          if pystr_eqb s (u "") then Ok PNone
          else if pystr_eqb (strip s) (u "NULL") then Ok PNone
          else
            try_except (val_decode val UTF8)
              (try_except (val_decode val Latin1)
                 (try_except (val_decode val ASCII)
                    (Ok val)))
      end
  end.

(** ** Output events and the monad of the methods *)

(** The four loguru entry points the module calls. *)
Inductive guru_method := guru_info | guru_warning | guru_error | guru_success.

(** What a call does to the outside world, in order.  [Print] is one call of
    the built-in [print] (the line and its newline go to [sys.stdout], the
    stream [Logger.terminal] was bound to), [Write] and [Flush] are
    [self.terminal.write] and [self.terminal.flush], [Guru] is one call of a
    loguru method with the composed string. *)
Inductive event :=
| Print (line : pystr)
| Write (s : pystr)
| Flush
| Guru (m : guru_method) (s : pystr).

(** A computation: the events done so far and either a value or the exception
    that ended it. *)
Definition M (A : Type) : Type := list event * res A.

Definition ret {A} (a : A) : M A := ([], Ok a).
Definition tell (ev : event) : M unit := ([ev], Ok tt).
Definition lift {A} (r : res A) : M A := ([], r).

Definition bind {A B} (c : M A) (k : A -> M B) : M B :=
  match c with
  | (t, Ok a) => let '(t', r) := k a in (t ++ t', r)
  | (t, Raise e) => (t, Raise e)
  end.

Definition res_bind {A B} (c : res A) (k : A -> res B) : res B :=
  match c with
  | Ok a => k a
  | Raise e => Raise e
  end.

Declare Scope py_scope.
Delimit Scope py_scope with py.
Notation "'let*' x ':=' c 'in' k" := (bind c (fun x => k))
  (at level 10, x name, c at level 100, k at level 200) : py_scope.
Notation "c ';;' k" := (bind c (fun _ => k))
  (at level 100, k at level 200, right associativity) : py_scope.
Notation "'let?' x ':=' c 'in' k" := (res_bind c (fun x => k))
  (at level 10, x name, c at level 100, k at level 200) : py_scope.
Local Open Scope py_scope.

Definition is_print (ev : event) : bool :=
  match ev with Print _ => true | _ => false end.
Definition is_terminal (ev : event) : bool :=
  match ev with Print _ | Write _ | Flush => true | Guru _ _ => false end.
Definition is_guru (ev : event) : bool :=
  match ev with Guru _ _ => true | _ => false end.

(** The part of a trace that reaches the output stream, and the part that
    reaches the sink. *)
Definition stream_events (t : list event) : list event := List.filter is_terminal t.
Definition sink_events (t : list event) : list event := List.filter is_guru t.

(** ** Collaborators outside the file *)

(** The colour helpers imported from [.colours]; the file only applies them. *)
Class Colours := {
  blue : pystr -> pystr;
  cyan : pystr -> pystr;
  green : pystr -> pystr;
  magenta : pystr -> pystr;
  orange : pystr -> pystr;
  red : pystr -> pystr;
  bg_blue : pystr -> pystr
}.

(** The [settings] object, by the outcome of reading each attribute the file
    reads. *)
Record Settings := {
  CONSOLE_LOG_LEVEL : res pystr;
  DEBUG : res pyval;
  CONSOLE_PATH_PREFIX : pystr
}.

Record FrameInfo := { filename : pystr; lineno : Z }.

(** What a call finds around it: whether loguru could be imported, the clock
    reading [arrow.now().format('H:mm:ss')], the stack
    [inspect.getouterframes(curframe, 0)] and [str(Path.cwd())]. *)
Record Env := {
  USE_GURU : bool;
  now : pystr;
  frames : list FrameInfo;
  cwd : pystr
}.

(** The interpreter's limits on a string: [ssize_max] is the largest
    index-sized integer ([sys.maxsize]), [str_limit] the longest string the
    machine still finds memory for. *)
Class Machine := {
  ssize_max : Z;
  str_limit : Z
}.

(** A freshly built string has to be allocated. *)
Definition allocated {machine : Machine} (s : pystr) : res pystr :=
  if str_limit <? Z.of_nat (length s) then Raise MemoryError else Ok s.

(** [s * n] on a [str].  The count has to fit an index; a count below one
    gives the empty string and a count of one the string itself; otherwise
    the length of the result has to fit an index, and the result has to be
    allocated.  The limits are tested on the lengths, before anything is
    built. *)
Definition py_repeat {machine : Machine} (s : pystr) (n : Z) : res pystr :=
  let len := Z.of_nat (length s) in
  if (n <? - ssize_max - 1) || (ssize_max <? n) then Raise OverflowError
  else if n <? 1 then Ok []
  else if n =? 1 then Ok s
  else if ssize_max / n <? len then Raise OverflowError
  else if str_limit <? len * n then Raise MemoryError
  else Ok (repeat_str s n).

(** ** The logger *)

Definition LOG_LEVELS : gmap pystr Z :=
  <[u "LOG" := 0]> (<[u "INFO" := 1]> (<[u "SUCCESS" := 2]>
  (<[u "TEMPLATE" := 3]> (<[u "WARN" := 4]> (<[u "ERROR" := 5]> ∅))))).

(** [LOG_LEVELS[k]] *)
Definition LOG_LEVELS_getitem (k : pystr) : res Z :=
  match LOG_LEVELS !! k with
  | Some n => Ok n
  | None => Raise KeyError
  end.

Definition CLEAR : pystr := 27%N :: u "[K".

(** The fields of a [Logger] other than the stream it is bound to. *)
Record Logger := {
  writing_progress : bool;
  spindex : Z;
  path_prefix : pystr
}.

(** [Logger.__init__] *)
Definition Logger_init (st : Settings) : Logger :=
  {| writing_progress := false;
     spindex := 0;
     path_prefix := CONSOLE_PATH_PREFIX st |}.

(** [Logger.buffer] *)
Definition buffer (msg : pystr) : M unit :=
  tell (Write msg) ;; tell Flush.

(** [Logger._check_log_level] *)
Definition _check_log_level (st : Settings) (called_level : pystr) : res bool :=
  let? level_str := try_except (CONSOLE_LOG_LEVEL st) (Ok (u "WARN")) in
  let? level := LOG_LEVELS_getitem level_str in
  let? called := LOG_LEVELS_getitem called_level in
  if called >=? level then Ok true else Ok false.

(** The placeholder returned when the caller's frame is missing. *)
Definition shrug : pystr :=
  [175; 92; 95; 40; 12484; 41; 95; 47; 175]%N.

(** [Logger._get_code_position]: [frame[1]] raises [IndexError] when the
    stack has fewer than two frames. *)
Definition _get_code_position (self : Logger) (env : Env) : pystr :=
  let frame := frames env in
  let base := cwd env in
  match frame !! 1%nat with
  | Some f =>
      path_prefix self ++ replace (filename f) base (u "") ++ u ":"
        ++ str_of_Z (lineno f)
  | None => shrug
  end.

Section Methods.
Context {colours : Colours}.
Variable st : Settings.
Variable env : Env.
Variable self : Logger.

(** [settings.DEBUG is False] *)
Definition is_False (v : pyval) : bool :=
  match v with
  | PBool false => true
  | _ => false
  end.

(** [USE_GURU and settings.DEBUG is False]: the attribute is read only when
    loguru is there. *)
Definition guru_enabled : M bool :=
  if USE_GURU env
  then let* d := lift (DEBUG st) in ret (is_False d)
  else ret false.

(** The f-string [f'{prefix} - {msg} - {extra}']. *)
Definition guru_line (prefix : pystr) (msg extra : pyval) : M pystr :=
  let* m := lift (py_str msg) in
  let* e := lift (py_str extra) in
  ret (prefix ++ u " - " ++ m ++ u " - " ++ e).

(** [Logger._output] *)
Definition _output (prefix : pystr) (msg extra : pyval) : M unit :=
  let* d := lift (decode msg) in
  let x := if py_truthy extra then extra else PStr (u "") in
  let* ds := lift (py_str d) in
  let* xs := lift (py_str x) in
  tell (Print (prefix ++ [10%N] ++ u "> " ++ ds ++ u " " ++ xs)).

(** [Logger._ts] *)
Definition _ts : pystr := magenta (now env).

(** [Logger.log] *)
Definition log (msg extra : pyval) : M unit :=
  let* ok := lift (_check_log_level st (u "LOG")) in
  if negb ok then ret tt else
  let pos := _get_code_position self env in
  let prefix := _ts ++ u " - " ++ cyan (u "LOG") ++ u " - " ++ pos in
  _output prefix msg extra.

(** [Logger.info] *)
Definition info (msg extra : pyval) : M unit :=
  let* ok := lift (_check_log_level st (u "INFO")) in
  if negb ok then ret tt else
  let pos := _get_code_position self env in
  let prefix := _ts ++ u " - " ++ blue (u "INFO") ++ u " - " ++ pos in
  let* g := guru_enabled in
  if g then let* s := guru_line prefix msg extra in tell (Guru guru_info s)
  else ret tt.

(** [Logger.warn] *)
Definition warn (msg extra : pyval) : M unit :=
  let* ok := lift (_check_log_level st (u "WARN")) in
  if negb ok then ret tt else
  let pos := _get_code_position self env in
  let prefix := _ts ++ u " - " ++ orange (u "WARN") ++ u " - " ++ pos in
  _output prefix msg extra ;;
  let* g := guru_enabled in
  if g then let* s := guru_line prefix msg extra in tell (Guru guru_warning s)
  else ret tt.

(** [Logger.error] *)
Definition error (msg extra : pyval) : M unit :=
  let* ok := lift (_check_log_level st (u "ERROR")) in
  if negb ok then ret tt else
  let pos := _get_code_position self env in
  let prefix := _ts ++ u " - " ++ red (u "ERROR") ++ u " - " ++ pos in
  let* g := guru_enabled in
  if g then let* s := guru_line prefix msg extra in tell (Guru guru_error s)
  else ret tt.

(** [Logger.success] *)
Definition success (msg extra : pyval) : M unit :=
  let* ok := lift (_check_log_level st (u "SUCCESS")) in
  if negb ok then ret tt else
  let pos := _get_code_position self env in
  let prefix := _ts ++ u " - " ++ green (u "SUCCESS") ++ u " - " ++ pos in
  let* g := guru_enabled in
  if g then let* s := guru_line prefix msg extra in tell (Guru guru_success s)
  else ret tt.

(** [Logger.template] *)
Definition template (msg extra : pyval) : M unit :=
  let* ok := lift (_check_log_level st (u "TEMPLATE")) in
  if negb ok then ret tt else
  let pos := _get_code_position self env in
  let prefix := _ts ++ u " - " ++ magenta (u "TEMPLATE") ++ u " - " ++ pos in
  let* g := guru_enabled in
  if g then let* s := guru_line prefix msg extra in tell (Guru guru_success s)
  else ret tt.

End Methods.

(** ** Numbers: Python [int] and [float]

    A [float] is an IEEE 754 binary64 value, in the representation and with
    the operations of the standard [SpecFloat] (round to nearest, ties to
    even). *)

Module PyNum.

Definition prec : Z := 53.
Definition emax : Z := 1024.

Inductive number :=
| NumInt (z : Z)
| NumFloat (f : spec_float).

Definition is_infinite (f : spec_float) : bool :=
  match f with S754_infinity _ => true | _ => false end.

(** [float(z)]: the nearest double, [OverflowError] beyond the range. *)
Definition float_of_int (z : Z) : res spec_float :=
  let f := binary_normalize prec emax z 0 false in
  if is_infinite f then Raise OverflowError else Ok f.

(** The exact integer [z] as an unrounded operand. *)
Definition exact_int (z : Z) : spec_float :=
  match z with
  | Z0 => S754_zero false
  | Zpos p => S754_finite false p 0
  | Zneg p => S754_finite true p 0
  end.

(** [a / b] on two [int]s, [b] not zero: the correctly rounded quotient,
    [OverflowError] when it is too large for a double. *)
Definition int_truediv (a b : Z) : res spec_float :=
  let f := SFdiv prec emax (exact_int a) (exact_int b) in
  if is_infinite f then Raise OverflowError else Ok f.

(** [x / 5] *)
Definition div5 (x : number) : res spec_float :=
  match x with
  | NumInt z => int_truediv z 5
  | NumFloat f =>
      Ok (SFdiv prec emax f (binary_normalize prec emax 5 0 false))
  end.

(** [100 - x] *)
Definition sub_from_100 (x : number) : number :=
  match x with
  | NumInt z => NumInt (100 - z)
  | NumFloat f =>
      NumFloat (SFsub prec emax (binary_normalize prec emax 100 0 false) f)
  end.

(** [math.floor] of a [float]. *)
Definition math_floor (f : spec_float) : res Z :=
  match f with
  | S754_nan => Raise ValueError
  | S754_infinity _ => Raise OverflowError
  | S754_zero _ => Ok 0
  | S754_finite s m e =>
      let n := if s then Zneg m else Zpos m in
      Ok (if 0 <=? e then n * 2 ^ e else n / 2 ^ (- e))
  end.

(** [math.ceil] of a [float]. *)
Definition math_ceil (f : spec_float) : res Z :=
  match f with
  | S754_nan => Raise ValueError
  | S754_infinity _ => Raise OverflowError
  | S754_zero _ => Ok 0
  | S754_finite s m e =>
      let n := if s then Zneg m else Zpos m in
      Ok (if 0 <=? e then n * 2 ^ e else - ((- n) / 2 ^ (- e)))
  end.

(** The integer nearest to [num / den], ties to even; [0 < den]. *)
Definition round_half_even (num den : Z) : Z :=
  let q := num / den in
  let r := num mod den in
  match 2 * r ?= den with
  | Lt => q
  | Gt => q + 1
  | Eq => if Z.even q then q else q + 1
  end.

Fixpoint zero_pad (width : nat) (s : pystr) : pystr :=
  match width with
  | O => s
  | S w => if (length s <? width)%nat then 48%N :: zero_pad w s else s
  end.

(** [format(f, '.4f')] for a [float]. *)
Definition format_4f (f : spec_float) : pystr :=
  match f with
  | S754_nan => u "nan"
  | S754_infinity s => if s then u "-inf" else u "inf"
  | S754_zero s => (if s then u "-" else u "") ++ u "0.0000"
  | S754_finite s m e =>
      let n :=
        if 0 <=? e then Zpos m * 2 ^ e * 10000
        else round_half_even (Zpos m * 10000) (2 ^ (- e)) in
      (if s then u "-" else u "")
        ++ str_of_Z (n / 10000) ++ u "."
        ++ zero_pad 4 (str_of_Z (n mod 10000))
  end.

(** [f'{x:.4f}']: an [int] is converted to [float] first. *)
Definition human_of (x : number) : res pystr :=
  match x with
  | NumInt z => let? f := float_of_int z in Ok (format_4f f)
  | NumFloat f => Ok (format_4f f)
  end.

End PyNum.
Export PyNum.

(** [l[i]] on a Python list, with negative indices counted from the end. *)
Definition py_getitem {A} (l : list A) (i : Z) : res A :=
  let n := Z.of_nat (length l) in
  let j := if i <? 0 then i + n else i in
  if (0 <=? j) && (j <? n)
  then match l !! Z.to_nat j with
       | Some x => Ok x
       | None => Raise IndexError
       end
  else Raise IndexError.

Definition spinner_frames : list pystr :=
  [[10251]; [10265]; [10297]; [10296]; [10300];
   [10292]; [10278]; [10279]; [10247]; [10255]]%N.

(** [Logger._parse] *)
Definition _parse (msg : pyval) : res pystr :=
  match msg with
  | PStr s => Ok s
  | _ => py_str msg
  end.

(** The ceiling of [a / b], for [0 < b]. *)
Definition ceil_div (a b : Z) : Z := - ((- a) / b).

(** [blocks = math.floor(perc / 5)] *)
Definition blocks_of (perc : number) : res Z :=
  let? q := div5 perc in math_floor q.

(** [spaces = math.ceil((100 - perc) / 5)] *)
Definition spaces_of (perc : number) : res Z :=
  let? q := div5 (sub_from_100 perc) in math_ceil q.

(** The doubles [5.0] and [100.0] in normal form. *)
Definition c5 : spec_float := S754_finite false 5629499534213120 (-50).
Definition c100 : spec_float := S754_finite false 7036874417766400 (-46).

(** The floor and the ceiling of the exact quotient [f / 5] for a finite
    double [f], whose value is [m * 2 ^ e] with the sign [s]. *)
Definition floor_fifth (f : spec_float) : Z :=
  match f with
  | S754_finite s m e =>
      ((if s then Zneg m else Zpos m) * 2 ^ Z.max 0 e)
      / (5 * 2 ^ Z.max 0 (- e))
  | _ => 0
  end.

Definition ceil_fifth (f : spec_float) : Z :=
  match f with
  | S754_finite s m e =>
      ceil_div ((if s then Zneg m else Zpos m) * 2 ^ Z.max 0 e)
        (5 * 2 ^ Z.max 0 (- e))
  | _ => 0
  end.

Definition exact_floor_fifth (x : number) : Z :=
  match x with
  | NumInt z => z / 5
  | NumFloat f => floor_fifth f
  end.

Definition exact_ceil_fifth (x : number) : Z :=
  match x with
  | NumInt z => ceil_div z 5
  | NumFloat f => ceil_fifth f
  end.

(** A number written with four decimals: an [int] gets four zeros, a
    [float] is rounded, ties to even. *)
Definition four_decimals (x : number) : pystr :=
  match x with
  | NumInt z =>
      (if z <? 0 then u "-" else u "") ++ str_of_Z (Z.abs z) ++ u ".0000"
  | NumFloat f => format_4f f
  end.

(** A double that is zero, or normal with a full mantissa and of size from
    [2 ^ -1019] to below [2 ^ 51]. *)
Definition moderate (f : spec_float) : bool :=
  match f with
  | S754_zero _ => true
  | S754_finite _ m e =>
      (Zpos (digits2_pos m) =? 53) && (-1071 <=? e) && (e <=? -2)
  | _ => false
  end.

(** The percents for which the arithmetic of [progress] is exact: an [int]
    below [2 ^ 53] in size, a moderate [float]. *)
Definition in_range (perc : number) : Prop :=
  match perc with
  | NumInt z => - 2 ^ 53 + 100 < z < 2 ^ 53
  | NumFloat f => moderate f = true
  end.

(** The first statement of [Logger.progress]: the spinner moves on. *)
Definition advance (i : Z) : Z :=
  if i =? Z.of_nat (length spinner_frames) - 1 then 0 else i + 1.

Section Progress.
Context {colours : Colours} {machine : Machine}.

(** The format string of [progress] around its five interpolated parts. *)
Definition bar_text (cells gap glyph human message : pystr) : pystr :=
  u " [" ++ cells ++ gap
    ++ u "] " ++ magenta glyph ++ u " " ++ human ++ u "% " ++ message
    ++ [13%N].

(** The line [progress] writes for given counts, when it can be built. *)
Definition bar_line (blocks spaces : Z) (glyph human message : pystr) : pystr :=
  bar_text (repeat_str (bg_blue (u " ")) blocks) (repeat_str (u " ") spaces)
    glyph human message.

(** The statements of [Logger.progress] after the spinner update, for the
    updated index [i].  The arguments of [format] are evaluated from left to
    right: the two repetitions, then the spinner frame. *)
Definition progress_body (i : Z) (msg : pyval) (perc : number) : M unit :=
  let* m := lift (_parse msg) in
  let message := blue m in
  tell (Write (13%N :: CLEAR)) ;;
  tell Flush ;;
  let* blocks := lift (blocks_of perc) in
  let* spaces := lift (spaces_of perc) in
  let* human := lift (human_of perc) in
  let* cells := lift (py_repeat (bg_blue (u " ")) blocks) in
  let* gap := lift (py_repeat (u " ") spaces) in
  let* glyph := lift (py_getitem spinner_frames i) in
  let* line := lift (allocated (bar_text cells gap glyph human message)) in
  tell (Write line) ;;
  tell Flush.

(** [Logger.progress]: the new field values and what the call did.  The
    index is stored before anything can raise; [writing_progress] is set by
    the last statement. *)
Definition progress (self : Logger) (msg : pyval) (perc : number)
  : Logger * M unit :=
  let i := advance (spindex self) in
  let c := progress_body i msg perc in
  ({| writing_progress :=
        match snd c with
        | Ok _ => true
        | Raise _ => writing_progress self
        end;
      spindex := i;
      path_prefix := path_prefix self |}, c).

End Progress.

(** A count that fits an index. *)
Definition index_sized {machine : Machine} (n : Z) : Prop :=
  - ssize_max - 1 <= n <= ssize_max.

(** The bar with these counts can be built: both counts fit an index and
    the whole line is within what the machine allocates. *)
Definition bar_fits {machine : Machine} (blocks spaces : Z) (line : pystr)
  : Prop :=
  index_sized blocks /\ index_sized spaces
  /\ Z.of_nat (length line) <= str_limit
  /\ Z.of_nat (length line) <= ssize_max.

(** A palette of ANSI escape sequences, to run the methods on examples. *)
Definition sgr (code : string) (s : pystr) : pystr :=
  27%N :: u "[" ++ u code ++ u "m" ++ s ++ 27%N :: u "[0m".

#[export] Instance ansi : Colours := {|
  blue := sgr "94"; cyan := sgr "96"; green := sgr "92";
  magenta := sgr "95"; orange := sgr "93"; red := sgr "91";
  bg_blue := sgr "44"
|}.

(** A 64-bit interpreter with room for strings of up to [2 ^ 31]
    characters. *)
#[export] Instance sample_machine : Machine := {|
  ssize_max := 2 ^ 63 - 1;
  str_limit := 2 ^ 31
|}.

(** ** The six methods as one family *)

Inductive level := LOG | INFO | SUCCESS | TEMPLATE | WARN | ERROR.

Definition level_name (l : level) : pystr :=
  match l with
  | LOG => u "LOG" | INFO => u "INFO" | SUCCESS => u "SUCCESS"
  | TEMPLATE => u "TEMPLATE" | WARN => u "WARN" | ERROR => u "ERROR"
  end.

Definition severity (l : level) : Z :=
  match l with
  | LOG => 0 | INFO => 1 | SUCCESS => 2 | TEMPLATE => 3 | WARN => 4 | ERROR => 5
  end.

(** The levels that [print]: [log] and [warn] call [_output]. *)
Definition writes_stream (l : level) : bool :=
  match l with LOG | WARN => true | _ => false end.

(** The levels that hand a string to loguru: all but [log]. *)
Definition forwards (l : level) : bool :=
  match l with LOG => false | _ => true end.

(** The loguru method each level calls ([log] calls none; its entry is never
    used). *)
Definition sink_method (l : level) : guru_method :=
  match l with
  | LOG | INFO => guru_info
  | SUCCESS | TEMPLATE => guru_success
  | WARN => guru_warning
  | ERROR => guru_error
  end.

(** The threshold a call works with: the configured name, ['WARN'] when
    reading it fails, looked up in [LOG_LEVELS]. *)
Definition threshold (st : Settings) : res Z :=
  let? level_str := try_except (CONSOLE_LOG_LEVEL st) (Ok (u "WARN")) in
  LOG_LEVELS_getitem level_str.

Definition with_level (st : Settings) (lv : res pystr) : Settings :=
  {| CONSOLE_LOG_LEVEL := lv; DEBUG := DEBUG st;
     CONSOLE_PATH_PREFIX := CONSOLE_PATH_PREFIX st |}.

Definition with_debug (st : Settings) (d : res pyval) : Settings :=
  {| CONSOLE_LOG_LEVEL := CONSOLE_LOG_LEVEL st; DEBUG := d;
     CONSOLE_PATH_PREFIX := CONSOLE_PATH_PREFIX st |}.

(** Whether a forwarding level reaches loguru: it was imported and [DEBUG]
    reads as the object [False]. *)
Definition sink_open (st : Settings) (env : Env) : bool :=
  USE_GURU env &&
  match DEBUG st with
  | Ok d => is_False d
  | Raise _ => false
  end.

(** What [_output] puts in the last slot of its line. *)
Definition extra_shown (extra : pyval) : pyval :=
  if py_truthy extra then extra else PStr (u "").

(** Every conversion a passing call may perform succeeds: the message
    decodes to something that has a text, [extra] has a text, and [DEBUG]
    can be read. *)
Definition renderable (st : Settings) (msg extra : pyval) : Prop :=
  (exists d ds, decode msg = Ok d /\ py_str d = Ok ds)
  /\ (exists es, py_str extra = Ok es)
  /\ (exists dbg, DEBUG st = Ok dbg).

(** [decode] returns [None] for these: [None] itself, a value whose text is
    empty, a value whose stripped text is [NULL]. *)
Definition none_like (val : pyval) : Prop :=
  val = PNone
  \/ py_str val = Ok (u "")
  \/ exists s, py_str val = Ok s /\ strip s = u "NULL".

(** The decoding the specification describes: UTF-8, then Latin-1, then
    ASCII, the first that succeeds; the value itself when none does. *)
Definition first_decoding (val : pyval) : pyval :=
  match val_decode val UTF8 with
  | Ok v => v
  | Raise _ =>
      match val_decode val Latin1 with
      | Ok v => v
      | Raise _ =>
          match val_decode val ASCII with
          | Ok v => v
          | Raise _ => val
          end
      end
  end.

(** Repeated [progress] calls, each with its own arguments. *)
Fixpoint progress_run {colours : Colours} {machine : Machine}
  (calls : list (pyval * number))
  (self : Logger) : Logger :=
  match calls with
  | [] => self
  | (msg, perc) :: rest => progress_run rest (fst (progress self msg perc))
  end.

Section Family.
Context {colours : Colours}.
Variable st : Settings.
Variable env : Env.
Variable self : Logger.

Definition call (l : level) : pyval -> pyval -> M unit :=
  match l with
  | LOG => log st env self
  | INFO => info st env self
  | SUCCESS => success st env self
  | TEMPLATE => template st env self
  | WARN => warn st env self
  | ERROR => error st env self
  end.

(** The colourised tag of a level. *)
Definition tag (l : level) : pystr :=
  match l with
  | LOG => cyan (u "LOG")
  | INFO => blue (u "INFO")
  | SUCCESS => green (u "SUCCESS")
  | TEMPLATE => magenta (u "TEMPLATE")
  | WARN => orange (u "WARN")
  | ERROR => red (u "ERROR")
  end.

(** The prefix every method builds: time, tag, position. *)
Definition prefix_of (l : level) : pystr :=
  _ts env ++ u " - " ++ tag l ++ u " - " ++ _get_code_position self env.

(** The line [_output] prints. *)
Definition stream_line (l : level) (ds xs : pystr) : pystr :=
  prefix_of l ++ [10%N] ++ u "> " ++ ds ++ u " " ++ xs.

(** The string handed to loguru. *)
Definition sink_line (l : level) (ms es : pystr) : pystr :=
  prefix_of l ++ u " - " ++ ms ++ u " - " ++ es.

End Family.

Section Passing.
Context {colours : Colours}.
Variable st : Settings.
Variable env : Env.
Variable self : Logger.

(** The forwarding step shared by [info], [warn], [error], [success] and
    [template]. *)
Definition forward_step (l : level) (msg extra : pyval) : M unit :=
  let* g := guru_enabled st env in
  if g then
    let* s := guru_line (prefix_of env self l) msg extra in
    tell (Guru (sink_method l) s)
  else ret tt.

(** What a method does once the level check has let the call through. *)
Definition passing_call (l : level) (msg extra : pyval) : M unit :=
  (if writes_stream l then _output (prefix_of env self l) msg extra else ret tt) ;;
  (if forwards l then forward_step l msg extra else ret tt).

End Passing.

(** ** Notions used to state further properties *)

(** The level name [_check_log_level] looks up: the configured one, ['WARN']
    when reading it raises. *)
Definition effective_level (st : Settings) : pystr :=
  match CONSOLE_LOG_LEVEL st with
  | Ok s => s
  | Raise _ => u "WARN"
  end.

(** [old in s]: [old] occurs in [s] as a substring. *)
Fixpoint occurs (old s : pystr) : bool :=
  is_prefix old s ||
  match s with
  | [] => false
  | _ :: t => occurs old t
  end.

(** The control sequence [progress] starts with: carriage return, clear to
    the end of the line. *)
Definition clear_line : pystr := 13%N :: CLEAR.

(** ** Sample inputs, to run the methods on *)

Definition sample_settings (lv : string) (debug : bool) : Settings :=
  {| CONSOLE_LOG_LEVEL := Ok (u lv);
     DEBUG := Ok (PBool debug);
     CONSOLE_PATH_PREFIX := u "app" |}.

(** A stack of two frames: the method itself and its caller. *)
Definition sample_env : Env :=
  {| USE_GURU := true;
     now := u "9:41:07";
     frames := [ {| filename := u "/srv/app/consoler/console.py"; lineno := 131 |};
                 {| filename := u "/srv/app/views.py"; lineno := 12 |} ];
     cwd := u "/srv/app" |}.

(** The same surroundings on a machine where loguru is not installed. *)
Definition sample_env_no_guru : Env :=
  {| USE_GURU := false;
     now := now sample_env;
     frames := frames sample_env;
     cwd := cwd sample_env |}.

Definition sample_logger : Logger := Logger_init (sample_settings "LOG" false).

(** Settings whose [CONSOLE_LOG_LEVEL] cannot be read. *)
Definition broken_settings : Settings :=
  {| CONSOLE_LOG_LEVEL := Raise AttributeError;
     DEBUG := Ok (PBool false);
     CONSOLE_PATH_PREFIX := u "" |}.

(** [n] calls of [progress] with its default arguments. *)
Definition default_calls (n : nat) : list (pyval * number) :=
  repeat (PStr (u ""), NumInt 0) n.

(** ** Facts about the monad *)

Lemma bind_ret_l {A B} (a : A) (k : A -> M B) : bind (ret a) k = k a.
Proof. unfold bind, ret. destruct (k a) as [t r]. reflexivity. Qed.

Lemma bind_lift_ok {A B} (a : A) (k : A -> M B) : bind (lift (Ok a)) k = k a.
Proof. apply bind_ret_l. Qed.

Lemma bind_lift_raise {A B} (e : exn) (k : A -> M B) :
  bind (lift (Raise e)) k = ([], Raise e).
Proof. reflexivity. Qed.

Lemma bind_tell {B} (ev : event) (k : unit -> M B) :
  bind (tell ev) k = (ev :: fst (k tt), snd (k tt)).
Proof. unfold bind, tell. destruct (k tt) as [t r]. reflexivity. Qed.

(** ** The level table *)

Lemma getitem_level_name (l : level) :
  LOG_LEVELS_getitem (level_name l) = Ok (severity l).
Proof. destruct l; vm_compute; reflexivity. Qed.

Lemma severity_range (l : level) : 0 <= severity l <= 5.
Proof. destruct l; simpl; lia. Qed.

Lemma getitem_unknown (s : pystr) :
  (forall l, s <> level_name l) -> LOG_LEVELS_getitem s = Raise KeyError.
Proof.
  intros Hs. unfold LOG_LEVELS_getitem, LOG_LEVELS.
  rewrite !lookup_insert_ne, lookup_empty; [reflexivity | ..];
    intros E; symmetry in E.
  - exact (Hs ERROR E).
  - exact (Hs WARN E).
  - exact (Hs TEMPLATE E).
  - exact (Hs SUCCESS E).
  - exact (Hs INFO E).
  - exact (Hs LOG E).
Qed.

Lemma check_threshold (st : Settings) (l : level) (t : Z) :
  threshold st = Ok t ->
  _check_log_level st (level_name l) = Ok (t <=? severity l).
Proof.
  unfold threshold, _check_log_level. intros H.
  destruct (try_except (CONSOLE_LOG_LEVEL st) (Ok (u "WARN"))) as [s|e];
    simpl in *; [|discriminate].
  rewrite H. simpl. rewrite getitem_level_name. simpl.
  unfold Z.geb, Z.leb. rewrite (Z.compare_antisym t (severity l)).
  destruct (t ?= severity l); reflexivity.
Qed.

Lemma check_raises (st : Settings) (s : pystr) (e : exn) :
  threshold st = Raise e -> _check_log_level st s = Raise e.
Proof.
  unfold threshold, _check_log_level. intros H.
  destruct (try_except (CONSOLE_LOG_LEVEL st) (Ok (u "WARN"))) as [s'|e'];
    simpl in *; [rewrite H; reflexivity | congruence].
Qed.

Lemma bind_ret_r (c : M unit) : bind c (fun _ => ret tt) = c.
Proof.
  destruct c as [t [[]|e]]; simpl; [rewrite app_nil_r|]; reflexivity.
Qed.

Lemma fst_bind {A B} (c : M A) (k : A -> M B) :
  fst (bind c k) =
  fst c ++ match snd c with Ok a => fst (k a) | Raise _ => [] end.
Proof.
  destruct c as [t [a|e]]; simpl.
  - destruct (k a); reflexivity.
  - rewrite app_nil_r. reflexivity.
Qed.

Lemma snd_bind {A B} (c : M A) (k : A -> M B) :
  snd (bind c k) =
  match snd c with Ok a => snd (k a) | Raise e => Raise e end.
Proof.
  destruct c as [t [a|e]]; simpl; [destruct (k a)|]; reflexivity.
Qed.

Ltac run :=
  repeat (rewrite ?bind_lift_ok, ?bind_lift_raise, ?bind_ret_l, ?bind_tell,
            ?bind_ret_r; cbn [negb fst snd]).

Section CallShape.
Context {colours : Colours}.
Variables (st : Settings) (env : Env) (self : Logger).

(** Each method is the level check followed by [passing_call]. *)
Lemma call_unfold (l : level) (msg extra : pyval) :
  call st env self l msg extra =
  (let* ok := lift (_check_log_level st (level_name l)) in
   if negb ok then ret tt else passing_call st env self l msg extra).
Proof.
  destruct l; unfold call, passing_call, forward_step, prefix_of;
    unfold log, info, success, template, warn, error;
    cbn [writes_stream forwards sink_method level_name tag];
    (destruct (_check_log_level st _) as [[|]|e];
     [rewrite !bind_lift_ok; cbn [negb];
      rewrite ?bind_ret_l, ?bind_ret_r; reflexivity
     | rewrite !bind_lift_ok; reflexivity
     | reflexivity]).
Qed.

Lemma call_filtered (l : level) (msg extra : pyval) (t : Z) :
  threshold st = Ok t -> severity l < t ->
  call st env self l msg extra = ([], Ok tt).
Proof.
  intros Ht Hlt. rewrite call_unfold, (check_threshold _ _ _ Ht). run.
  destruct (Z.leb_spec t (severity l)); [lia | reflexivity].
Qed.

Lemma call_passes (l : level) (msg extra : pyval) (t : Z) :
  threshold st = Ok t -> t <= severity l ->
  call st env self l msg extra = passing_call st env self l msg extra.
Proof.
  intros Ht Hle. rewrite call_unfold, (check_threshold _ _ _ Ht). run.
  destruct (Z.leb_spec t (severity l)); [reflexivity | lia].
Qed.

Lemma call_threshold_raises (l : level) (msg extra : pyval) (e : exn) :
  threshold st = Raise e ->
  call st env self l msg extra = ([], Raise e).
Proof.
  intros Ht. rewrite call_unfold, (check_raises _ _ _ Ht). reflexivity.
Qed.

End CallShape.

(** ** The two steps of a passing call *)

Section Steps.
Context {colours : Colours}.
Variables (st : Settings) (env : Env) (self : Logger).

Lemma output_ok (p : pystr) (msg extra d : pyval) (ds xs : pystr) :
  decode msg = Ok d -> py_str d = Ok ds ->
  py_str (extra_shown extra) = Ok xs ->
  _output p msg extra
  = ([Print (p ++ [10%N] ++ u "> " ++ ds ++ u " " ++ xs)], Ok tt).
Proof.
  intros Hd Hds Hxs. unfold _output. fold (extra_shown extra).
  rewrite Hd, bind_lift_ok, Hds, bind_lift_ok, Hxs, bind_lift_ok.
  reflexivity.
Qed.

(** [_output] prints one line, or raises before printing anything. *)
Lemma output_shape (p : pystr) (msg extra : pyval) :
  (exists line, _output p msg extra = ([Print line], Ok tt))
  \/ (exists e, _output p msg extra = ([], Raise e)).
Proof.
  unfold _output.
  destruct (decode msg) as [d|e]; [rewrite bind_lift_ok | right; eauto].
  destruct (py_str d) as [ds|e]; [rewrite bind_lift_ok | right; eauto].
  destruct (py_str _) as [xs|e]; [rewrite bind_lift_ok | right; eauto].
  left. eauto.
Qed.

Lemma guru_enabled_eq :
  guru_enabled st env =
  if USE_GURU env
  then match DEBUG st with
       | Ok d => ([], Ok (is_False d))
       | Raise e => ([], Raise e)
       end
  else ([], Ok false).
Proof.
  unfold guru_enabled. destruct (USE_GURU env); [|reflexivity].
  destruct (DEBUG st); reflexivity.
Qed.

Lemma forward_open (l : level) (msg extra : pyval) (ms es : pystr) :
  sink_open st env = true -> py_str msg = Ok ms -> py_str extra = Ok es ->
  forward_step st env self l msg extra
  = ([Guru (sink_method l) (sink_line env self l ms es)], Ok tt).
Proof.
  unfold sink_open, forward_step. intros Ho Hm He.
  rewrite guru_enabled_eq.
  destruct (USE_GURU env); [|discriminate].
  destruct (DEBUG st) as [d|]; [|discriminate]. cbn [andb] in Ho.
  change ([], Ok (is_False d)) with (@ret bool (is_False d)).
  rewrite bind_ret_l, Ho. unfold guru_line.
  rewrite Hm, bind_lift_ok, He, bind_lift_ok, bind_ret_l. reflexivity.
Qed.

Lemma forward_closed (l : level) (msg extra : pyval) :
  sink_open st env = false ->
  fst (forward_step st env self l msg extra) = [].
Proof.
  unfold sink_open, forward_step. intros Ho. rewrite guru_enabled_eq.
  destruct (USE_GURU env); [|reflexivity].
  destruct (DEBUG st) as [d|]; [|reflexivity]. cbn [andb] in Ho.
  change ([], Ok (is_False d)) with (@ret bool (is_False d)).
  rewrite bind_ret_l, Ho. reflexivity.
Qed.

Lemma forward_closed_ok (l : level) (msg extra : pyval) (dbg : pyval) :
  sink_open st env = false -> DEBUG st = Ok dbg ->
  forward_step st env self l msg extra = ([], Ok tt).
Proof.
  unfold sink_open, forward_step. intros Ho Hd. rewrite guru_enabled_eq, Hd in *.
  destruct (USE_GURU env); [|reflexivity]. cbn [andb] in Ho.
  change ([], Ok (is_False dbg)) with (@ret bool (is_False dbg)).
  rewrite bind_ret_l, Ho. reflexivity.
Qed.

(** The forwarding step hands loguru at most one string, by the method of
    the level, and touches nothing else. *)
Lemma forward_shape (l : level) (msg extra : pyval) :
  (exists s r, forward_step st env self l msg extra
               = ([Guru (sink_method l) s], r))
  \/ fst (forward_step st env self l msg extra) = [].
Proof.
  unfold forward_step. rewrite guru_enabled_eq.
  destruct (USE_GURU env); [|right; reflexivity].
  destruct (DEBUG st) as [d|]; [|right; reflexivity].
  change ([], Ok (is_False d)) with (@ret bool (is_False d)).
  rewrite bind_ret_l. destruct (is_False d); [|right; reflexivity].
  unfold guru_line.
  destruct (py_str msg) as [ms|]; [rewrite bind_lift_ok | right; reflexivity].
  destruct (py_str extra) as [es|]; [rewrite bind_lift_ok | right; reflexivity].
  rewrite bind_ret_l. left. eauto.
Qed.

Lemma forward_stream (l : level) (msg extra : pyval) :
  stream_events (fst (forward_step st env self l msg extra)) = [].
Proof.
  destruct (forward_shape l msg extra) as [(s & r & ->) | ->]; reflexivity.
Qed.

Lemma output_sink (p : pystr) (msg extra : pyval) :
  sink_events (fst (_output p msg extra)) = [].
Proof.
  destruct (output_shape p msg extra) as [[line ->] | [e ->]]; reflexivity.
Qed.

Lemma stream_events_app (a b : list event) :
  stream_events (a ++ b) = stream_events a ++ stream_events b.
Proof. apply List.filter_app. Qed.

Lemma sink_events_app (a b : list event) :
  sink_events (a ++ b) = sink_events a ++ sink_events b.
Proof. apply List.filter_app. Qed.

(** The trace of a passing call when everything renders. *)
Lemma passing_call_ok (l : level) (msg extra d dbg : pyval)
    (ds ms es xs : pystr) :
  decode msg = Ok d -> py_str d = Ok ds -> py_str msg = Ok ms ->
  py_str extra = Ok es -> py_str (extra_shown extra) = Ok xs ->
  DEBUG st = Ok dbg ->
  passing_call st env self l msg extra
  = ((if writes_stream l then [Print (stream_line env self l ds xs)] else [])
     ++ (if forwards l && sink_open st env
         then [Guru (sink_method l) (sink_line env self l ms es)] else []),
     Ok tt).
Proof.
  intros Hd Hds Hms Hes Hxs Hdbg. unfold passing_call.
  assert (Hf : forward_step st env self l msg extra
               = (if sink_open st env
                  then [Guru (sink_method l) (sink_line env self l ms es)]
                  else [], Ok tt)).
  { destruct (sink_open st env) eqn:Ho.
    - apply forward_open; assumption.
    - eapply forward_closed_ok; eassumption. }
  rewrite (output_ok _ _ _ _ _ _ Hd Hds Hxs), Hf.
  destruct (writes_stream l), (forwards l); cbn [andb];
    unfold stream_line; destruct (sink_open st env); reflexivity.
Qed.

End Steps.

(** A message [decode] accepts has a text, and what [_output] shows of a
    printable [extra] is printable. *)
Lemma decode_ok_text (msg d : pyval) :
  decode msg = Ok d -> exists ms, py_str msg = Ok ms.
Proof.
  intros H. destruct msg as [| [|] | z | s | bs | o_str o_bool o_decode];
    try (eexists; reflexivity).
  unfold decode in H. cbn [py_str] in *.
  destruct o_str as [ms|e]; [exists ms; reflexivity | discriminate].
Qed.

Lemma extra_shown_text (extra : pyval) (es : pystr) :
  py_str extra = Ok es -> exists xs, py_str (extra_shown extra) = Ok xs.
Proof.
  intros H. unfold extra_shown. destruct (py_truthy extra); eauto.
Qed.

(** ** Level filtering *)

Section Filtering.
Context {colours : Colours}.
Variables (st : Settings) (env : Env) (self : Logger).

(** C1. With a configured threshold [t]: a call of lower severity returns at
    once, with no event at all; a call of severity [t] or more whose
    conversions succeed returns normally and leaves exactly this behind:
    for [log] and [warn] one [print] of the prefix, a newline, [> ], the
    decoded message, a space and the shown [extra]; then, when the level
    forwards and the sink is open (loguru present, [DEBUG] is [False]), one
    call of the level's loguru method with the prefix, the message and
    [extra] joined by [ - ]; and nothing else.  So its stream events are
    [print]s only, one for [log] and [warn] and none for the others, and it
    calls loguru once or not at all. *)
Theorem level_filter (l : level) (msg extra : pyval) (t : Z) :
  threshold st = Ok t ->
  (severity l < t -> call st env self l msg extra = ([], Ok tt))
  /\ (t <= severity l -> renderable st msg extra ->
      exists d ds ms es xs,
        decode msg = Ok d /\ py_str d = Ok ds /\ py_str msg = Ok ms
        /\ py_str extra = Ok es /\ py_str (extra_shown extra) = Ok xs
        /\ call st env self l msg extra
           = ((if writes_stream l
               then [Print (prefix_of env self l ++ [10%N] ++ u "> "
                            ++ ds ++ u " " ++ xs)]
               else [])
              ++ (if forwards l && sink_open st env
                  then [Guru (sink_method l)
                          (prefix_of env self l ++ u " - " ++ ms
                           ++ u " - " ++ es)]
                  else []),
              Ok tt)
        /\ stream_events (fst (call st env self l msg extra))
           = List.filter is_print (fst (call st env self l msg extra))
        /\ length (stream_events (fst (call st env self l msg extra)))
           = (if writes_stream l then 1 else 0)%nat
        /\ length (sink_events (fst (call st env self l msg extra)))
           = (if forwards l && sink_open st env then 1 else 0)%nat).
Proof.
  intros Ht. split.
  - apply call_filtered. exact Ht.
  - intros Hle ((d & ds & Hd & Hds) & (es & Hes) & (dbg & Hdbg)).
    destruct (decode_ok_text _ _ Hd) as [ms Hms].
    destruct (extra_shown_text _ _ Hes) as [xs Hxs].
    exists d, ds, ms, es, xs.
    rewrite (call_passes _ _ _ _ _ _ _ Ht Hle).
    rewrite (passing_call_ok _ _ _ _ _ _ _ _ _ _ _ _ Hd Hds Hms Hes Hxs Hdbg).
    repeat (split; [assumption|]).
    split; [reflexivity|]. cbn [fst].
    destruct (writes_stream l), (forwards l && sink_open st env);
      repeat split; reflexivity.
Qed.

(** C2, as amended.  A passing [info], [success], [template] or [error] call
    leaves no event on the stream; whatever a passing call hands to loguru
    goes to the method of its level, which is [success] for [template] and
    [warning] for [warn]; a passing [warn] whose conversions succeed prints
    its line and, when the sink is open, forwards to [warning] after it. *)
Theorem routing (l : level) (msg extra : pyval) (t : Z) :
  threshold st = Ok t -> t <= severity l ->
  (writes_stream l = false ->
   stream_events (fst (call st env self l msg extra)) = [])
  /\ (forall m s, In (Guru m s) (fst (call st env self l msg extra)) ->
      m = sink_method l)
  /\ sink_method TEMPLATE = guru_success
  /\ sink_method WARN = guru_warning
  /\ (l = WARN ->
      forall d ds ms es xs dbg,
        decode msg = Ok d -> py_str d = Ok ds -> py_str msg = Ok ms ->
        py_str extra = Ok es -> py_str (extra_shown extra) = Ok xs ->
        DEBUG st = Ok dbg ->
        call st env self l msg extra
        = (Print (stream_line env self WARN ds xs)
           :: (if sink_open st env
               then [Guru guru_warning (sink_line env self WARN ms es)]
               else []),
           Ok tt)).
Proof.
  intros Ht Hle. rewrite (call_passes _ _ _ _ _ _ _ Ht Hle).
  repeat split.
  - intros Hw. unfold passing_call. rewrite Hw, bind_ret_l.
    destruct (forwards l); [apply forward_stream | reflexivity].
  - intros m s. unfold passing_call. rewrite fst_bind, in_app_iff.
    intros [Hin | Hin].
    + destruct (writes_stream l); [|destruct Hin].
      destruct (output_shape (prefix_of env self l) msg extra)
        as [[line E] | [e E]]; rewrite E in Hin; simpl in Hin;
        [destruct Hin as [Hin|[]]; discriminate | destruct Hin].
    + destruct (snd _); [|destruct Hin].
      destruct (forwards l); [|destruct Hin].
      destruct (forward_shape st env self l msg extra)
        as [(s' & r & E) | E]; rewrite E in Hin; simpl in Hin;
        [destruct Hin as [Hin|[]]; congruence | destruct Hin].
  - intros -> d ds ms es xs dbg Hd Hds Hms Hes Hxs Hdbg.
    rewrite (passing_call_ok _ _ _ _ _ _ _ _ _ _ _ _ Hd Hds Hms Hes Hxs Hdbg).
    reflexivity.
Qed.

(** C3. With [DEBUG] true nothing is handed to loguru, at any level, and the
    stream receives exactly what it receives with [DEBUG] false. *)
Theorem debug_suppresses_sink (l : level) (msg extra : pyval) :
  sink_events
    (fst (call (with_debug st (Ok (PBool true))) env self l msg extra)) = []
  /\ stream_events
       (fst (call (with_debug st (Ok (PBool true))) env self l msg extra))
     = stream_events
         (fst (call (with_debug st (Ok (PBool false))) env self l msg extra)).
Proof.
  rewrite !call_unfold.
  change (_check_log_level (with_debug st _) (level_name l))
    with (_check_log_level st (level_name l)).
  change (_check_log_level (with_debug st _) (level_name l))
    with (_check_log_level st (level_name l)).
  destruct (_check_log_level st (level_name l)) as [[|]|e];
    [rewrite !bind_lift_ok; cbn [negb] | split; reflexivity ..].
  unfold passing_call. rewrite !fst_bind, !sink_events_app, !stream_events_app.
  assert (Hc : forall m x, fst (forward_step (with_debug st (Ok (PBool true)))
                                  env self l m x) = []).
  { intros. apply forward_closed. unfold sink_open. simpl.
    apply andb_false_r. }
  split.
  - destruct (writes_stream l).
    + rewrite output_sink. destruct (snd _); [|reflexivity].
      destruct (forwards l); [rewrite Hc|]; reflexivity.
    + simpl. destruct (forwards l); [rewrite Hc|]; reflexivity.
  - f_equal. destruct (snd _); [|reflexivity].
    destruct (forwards l); [|reflexivity].
    rewrite !forward_stream. reflexivity.
Qed.

(** C8. When reading [CONSOLE_LOG_LEVEL] raises, the threshold is that of
    [WARN], the level check returns normally, and every method behaves as
    it does with [CONSOLE_LOG_LEVEL = 'WARN']. *)
Theorem threshold_read_failure (l : level) (msg extra : pyval) (e : exn) :
  CONSOLE_LOG_LEVEL st = Raise e ->
  threshold st = Ok (severity WARN)
  /\ _check_log_level st (level_name l) = Ok (severity WARN <=? severity l)
  /\ call st env self l msg extra
     = call (with_level st (Ok (u "WARN"))) env self l msg extra.
Proof.
  intros He.
  assert (Ht : threshold st = Ok (severity WARN)).
  { unfold threshold. rewrite He. vm_compute. reflexivity. }
  assert (Ht' : threshold (with_level st (Ok (u "WARN"))) = Ok (severity WARN)).
  { vm_compute. reflexivity. }
  split; [exact Ht|]. split; [apply check_threshold; exact Ht|].
  rewrite !call_unfold.
  rewrite (check_threshold _ l _ Ht), (check_threshold _ l _ Ht').
  reflexivity.
Qed.

(** C10. When [CONSOLE_LOG_LEVEL] is read as a string that is none of the
    six names, every method raises [KeyError] and does nothing else. *)
Theorem unknown_level_raises (l : level) (msg extra : pyval) (s : pystr) :
  CONSOLE_LOG_LEVEL st = Ok s ->
  (forall l', s <> level_name l') ->
  call st env self l msg extra = ([], Raise KeyError).
Proof.
  intros Hs Hne. apply call_threshold_raises.
  unfold threshold. rewrite Hs. simpl. apply getitem_unknown. exact Hne.
Qed.

End Filtering.

(** ** [decode] *)

Lemma pystr_eqb_refl (s : pystr) : pystr_eqb s s = true.
Proof. apply bool_decide_eq_true. reflexivity. Qed.

Lemma decode_none_like (val : pyval) : none_like val -> decode val = Ok PNone.
Proof.
  intros [-> | [H | (s & H & Hs)]]; [reflexivity | |].
  - destruct val; try reflexivity; unfold decode; rewrite H;
      rewrite pystr_eqb_refl; reflexivity.
  - destruct val; try reflexivity; unfold decode; rewrite H, Hs;
      rewrite pystr_eqb_refl; destruct (pystr_eqb s (u "")); reflexivity.
Qed.

Lemma try_chain (val : pyval) :
  try_except (val_decode val UTF8)
    (try_except (val_decode val Latin1)
       (try_except (val_decode val ASCII) (Ok val)))
  = Ok (first_decoding val).
Proof.
  unfold first_decoding, try_except.
  destruct (val_decode val UTF8); [reflexivity|].
  destruct (val_decode val Latin1); [reflexivity|].
  destruct (val_decode val ASCII); reflexivity.
Qed.

Lemma decode_otherwise (val : pyval) (s : pystr) :
  py_str val = Ok s -> ~ none_like val ->
  decode val = Ok (first_decoding val).
Proof.
  intros Hs Hn.
  assert (H1 : pystr_eqb s (u "") = false).
  { apply bool_decide_eq_false. intros ->. apply Hn. right. left. exact Hs. }
  assert (H2 : pystr_eqb (strip s) (u "NULL") = false).
  { apply bool_decide_eq_false. intros E. apply Hn. right. right. eauto. }
  destruct val;
    [exfalso; apply Hn; left; reflexivity | ..];
    unfold decode; rewrite Hs, H1, H2; apply try_chain.
Qed.

(** C5. For a value that has a text: [decode] returns [None] when the value
    is [None], when its text is empty, or when its stripped text is [NULL];
    otherwise it returns the first of the UTF-8, Latin-1 and ASCII decodings
    that succeeds, and the value itself when none does, in particular when
    the value has no [decode] method.  [decode('hello')] is ['hello']. *)
Theorem decode_cases (val : pyval) (s : pystr) :
  py_str val = Ok s ->
  (none_like val -> decode val = Ok PNone)
  /\ (~ none_like val ->
      decode val = Ok (first_decoding val)
      /\ (forall v, val_decode val UTF8 = Ok v -> decode val = Ok v)
      /\ (forall e v, val_decode val UTF8 = Raise e ->
          val_decode val Latin1 = Ok v -> decode val = Ok v)
      /\ (forall e e' v, val_decode val UTF8 = Raise e ->
          val_decode val Latin1 = Raise e' ->
          val_decode val ASCII = Ok v -> decode val = Ok v)
      /\ ((forall enc, exists e, val_decode val enc = Raise e) ->
          decode val = Ok val))
  /\ decode PNone = Ok PNone
  /\ decode (PStr (u "")) = Ok PNone
  /\ decode (PStr (u "NULL")) = Ok PNone
  /\ decode (PStr (u "hello")) = Ok (PStr (u "hello")).
Proof.
  intros Hs. split; [apply decode_none_like|].
  split; [|repeat split; vm_compute; reflexivity].
  intros Hn. rewrite (decode_otherwise _ _ Hs Hn). unfold first_decoding.
  repeat split.
  - intros v ->. reflexivity.
  - intros e v -> ->. reflexivity.
  - intros e e' v -> -> ->. reflexivity.
  - intros H. destruct (H UTF8) as [e1 ->], (H Latin1) as [e2 ->],
      (H ASCII) as [e3 ->]. reflexivity.
Qed.

(** ** The message slot of a printed line *)

Section MessageSlot.
Context {colours : Colours}.
Variables (st : Settings) (env : Env) (self : Logger).

(** C9. A passing [log] or [warn] call whose message is [None], has an empty
    text, or has a text that strips to [NULL], prints a line whose message
    slot, after ["> "], is the text [None]: [decode] returned [None] and
    [format] wrote it out. *)
Theorem none_message_printed (l : level) (msg extra : pyval) (t : Z)
    (xs : pystr) :
  writes_stream l = true ->
  threshold st = Ok t -> t <= severity l ->
  none_like msg ->
  py_str (extra_shown extra) = Ok xs ->
  decode msg = Ok PNone
  /\ exists rest r,
       call st env self l msg extra
       = (Print (prefix_of env self l ++ [10%N] ++ u "> " ++ u "None"
                 ++ u " " ++ xs) :: rest, r).
Proof.
  intros Hw Ht Hle Hn Hxs.
  pose proof (decode_none_like _ Hn) as Hd. split; [exact Hd|].
  rewrite (call_passes _ _ _ _ _ _ _ Ht Hle). unfold passing_call.
  rewrite Hw.
  rewrite (output_ok _ _ _ PNone (u "None") xs Hd eq_refl Hxs).
  change ([Print ?x], Ok tt) with (tell (Print x)).
  rewrite bind_tell. eauto.
Qed.

End MessageSlot.

(** ** The spinner *)

Section Spinner.
Context {colours : Colours} {machine : Machine}.

Lemma advance_mod (i : Z) : 0 <= i <= 9 -> advance i = (i + 1) mod 10.
Proof.
  intros Hi. unfold advance.
  change (Z.of_nat (length spinner_frames) - 1) with 9.
  destruct (Z.eqb_spec i 9) as [-> | Hne]; [reflexivity|].
  rewrite Z.mod_small; lia.
Qed.

Lemma progress_spindex (self : Logger) (msg : pyval) (perc : number) :
  spindex (fst (progress self msg perc)) = advance (spindex self).
Proof. reflexivity. Qed.

Lemma progress_run_spindex (calls : list (pyval * number)) :
  forall self, 0 <= spindex self <= 9 ->
  spindex (progress_run calls self)
  = (spindex self + Z.of_nat (length calls)) mod 10.
Proof.
  induction calls as [| [msg perc] rest IH]; intros self Hi.
  - simpl. rewrite Z.add_0_r, Z.mod_small; lia.
  - cbn [progress_run].
    assert (Hr : 0 <= spindex (fst (progress self msg perc)) <= 9).
    { rewrite progress_spindex, advance_mod by lia.
      pose proof (Z.mod_pos_bound (spindex self + 1) 10). lia. }
    rewrite (IH _ Hr), progress_spindex, advance_mod by lia.
    rewrite Zplus_mod_idemp_l. f_equal. cbn [length]. lia.
Qed.

(** C7, as amended.  From an index in [0, 9], which is all the field ever
    holds, one [progress] call moves it to the next frame of the ten-frame
    cycle and keeps it in [0, 9], whatever the arguments and whether or not
    the call raises; ten consecutive calls bring it back to where it
    started, and eleven leave it one frame further. *)
Theorem spinner_cycle (self : Logger) (calls : list (pyval * number)) :
  0 <= spindex self <= 9 ->
  (forall msg perc,
     spindex (fst (progress self msg perc)) = (spindex self + 1) mod 10
     /\ 0 <= spindex (fst (progress self msg perc)) <= 9)
  /\ 0 <= spindex (progress_run calls self) <= 9
  /\ (length calls = 10%nat ->
      spindex (progress_run calls self) = spindex self)
  /\ (length calls = 11%nat ->
      spindex (progress_run calls self) = (spindex self + 1) mod 10).
Proof.
  intros Hi. rewrite (progress_run_spindex calls self Hi).
  repeat split.
  - rewrite progress_spindex. apply advance_mod, Hi.
  - rewrite progress_spindex, advance_mod by lia. apply Z.mod_pos_bound. lia.
  - rewrite progress_spindex, advance_mod by lia.
    pose proof (Z.mod_pos_bound (spindex self + 1) 10). lia.
  - apply Z.mod_pos_bound. lia.
  - pose proof (Z.mod_pos_bound (spindex self + Z.of_nat (length calls)) 10).
    lia.
  - intros ->. change (Z.of_nat 10) with (1 * 10).
    rewrite Z.mod_add, Z.mod_small; lia.
  - intros ->. change (Z.of_nat 11) with (1 + 1 * 10).
    rewrite Z.add_assoc, Z.mod_add; lia.
Qed.

End Spinner.

(** ** The claims on sample inputs *)

Lemma sample_renderable (lv : string) (debug : bool) :
  renderable (sample_settings lv debug) (PStr (u "hello")) PNone.
Proof.
  unfold renderable. repeat split.
  - exists (PStr (u "hello")), (u "hello"). split; vm_compute; reflexivity.
  - eexists. reflexivity.
  - eexists. reflexivity.
Qed.

Lemma level_filter_witness :
  threshold (sample_settings "INFO" false) = Ok 1
  /\ call (sample_settings "INFO" false) sample_env sample_logger
       LOG (PStr (u "hello")) PNone = ([], Ok tt)
  /\ exists d ds ms es xs,
       decode (PStr (u "hello")) = Ok d /\ py_str d = Ok ds
       /\ py_str (PStr (u "hello")) = Ok ms
       /\ py_str PNone = Ok es /\ py_str (extra_shown PNone) = Ok xs
       /\ call (sample_settings "INFO" false) sample_env sample_logger
            WARN (PStr (u "hello")) PNone
          = ([Print (prefix_of sample_env sample_logger WARN ++ [10%N]
                     ++ u "> " ++ ds ++ u " " ++ xs)]
             ++ [Guru guru_warning
                   (prefix_of sample_env sample_logger WARN ++ u " - " ++ ms
                    ++ u " - " ++ es)],
             Ok tt).
Proof.
  assert (Ht : threshold (sample_settings "INFO" false) = Ok 1)
    by (vm_compute; reflexivity).
  split; [exact Ht|]. split.
  - apply (proj1 (level_filter (sample_settings "INFO" false) sample_env
                    sample_logger LOG (PStr (u "hello")) PNone 1 Ht)).
    simpl. lia.
  - destruct (proj2 (level_filter (sample_settings "INFO" false) sample_env
                       sample_logger WARN (PStr (u "hello")) PNone 1 Ht)
                ltac:(simpl; lia) (sample_renderable "INFO" false))
      as (d & ds & ms & es & xs & Hd & Hds & Hms & Hes & Hxs & Hc & _).
    exists d, ds, ms, es, xs.
    repeat (split; [assumption|]). exact Hc.
Defined.

(** ** Binary64 arithmetic on mantissas of 53 and 54 bits *)

Lemma digits2_pos_spec (p : positive) :
  2 ^ (Zpos (digits2_pos p) - 1) <= Zpos p < 2 ^ Zpos (digits2_pos p).
Proof.
  induction p as [p IH | p IH |]; cbn [digits2_pos];
    rewrite ?Pos2Z.inj_succ;
    rewrite ?Z.pow_succ_r by (pose proof (Pos2Z.is_pos (digits2_pos p)); lia).
  - replace (Z.succ (Zpos (digits2_pos p)) - 1)
      with (Z.succ (Zpos (digits2_pos p) - 1)) by lia.
    rewrite Z.pow_succ_r by (pose proof (Pos2Z.is_pos (digits2_pos p)); lia).
    lia.
  - replace (Z.succ (Zpos (digits2_pos p)) - 1)
      with (Z.succ (Zpos (digits2_pos p) - 1)) by lia.
    rewrite Z.pow_succ_r by (pose proof (Pos2Z.is_pos (digits2_pos p)); lia).
    lia.
  - simpl. lia.
Qed.

Lemma digits2_pos_unique (p : positive) (d : Z) :
  2 ^ (d - 1) <= Zpos p < 2 ^ d -> Zpos (digits2_pos p) = d.
Proof.
  intros [Hlo Hhi]. pose proof (digits2_pos_spec p) as [Hlo' Hhi'].
  pose proof (Pos2Z.is_pos (digits2_pos p)) as Hpos.
  assert (Hd : 0 < d).
  { destruct (Z_lt_le_dec 0 d) as [|Hle]; [assumption|].
    destruct (Z.eq_dec d 0) as [->|]; [simpl in Hhi; lia|].
    rewrite (Z.pow_neg_r 2 d) in Hhi by lia. lia. }
  destruct (Z_lt_le_dec (Zpos (digits2_pos p)) d) as [Hlt|Hge].
  - assert (2 ^ Zpos (digits2_pos p) <= 2 ^ (d - 1))
      by (apply Z.pow_le_mono_r; lia). lia.
  - destruct (Z_lt_le_dec d (Zpos (digits2_pos p))) as [Hlt|Hle]; [|lia].
    assert (2 ^ d <= 2 ^ (Zpos (digits2_pos p) - 1))
      by (apply Z.pow_le_mono_r; lia). lia.
Qed.

Lemma loc_of_record_of_loc (m : Z) (l : location) :
  loc_of_shr_record (shr_record_of_loc m l) = l.
Proof. destruct l as [|[]]; reflexivity. Qed.

Lemma shr_fexp_53 (m : positive) (e : Z) (l : location) :
  Zpos (digits2_pos m) = 53 -> -1074 <= e ->
  shr_fexp prec emax (Zpos m) e l = (shr_record_of_loc (Zpos m) l, e).
Proof.
  intros Hd He. unfold shr_fexp, Zdigits2. rewrite Hd.
  replace (fexp prec emax (53 + e) - e) with 0
    by (unfold fexp, emin, prec, emax; lia).
  reflexivity.
Qed.

Lemma shr_fexp_54 (m : positive) (e : Z) (l : location) :
  Zpos (digits2_pos m) = 54 -> -1075 <= e ->
  shr_fexp prec emax (Zpos m) e l
  = (shr_1 (shr_record_of_loc (Zpos m) l), e + 1).
Proof.
  intros Hd He. unfold shr_fexp, Zdigits2. rewrite Hd.
  replace (fexp prec emax (54 + e) - e) with 1
    by (unfold fexp, emin, prec, emax; lia).
  reflexivity.
Qed.

(** The last step of [binary_round_aux] on a mantissa of 53 bits, or on
    [2 ^ 53]: the float keeps the value [m * 2 ^ e]. *)
Lemma round_finish (s : bool) (m : positive) (e : Z) :
  2 ^ 52 <= Zpos m <= 2 ^ 53 -> -1074 <= e <= 970 ->
  exists m' e',
    (let '(mrs, e2) := shr_fexp prec emax (Zpos m) e loc_Exact in
     match shr_m mrs with
     | Z0 => S754_zero s
     | Zpos m0 =>
         if e2 <=? emax - prec then S754_finite s m0 e2 else S754_infinity s
     | Zneg _ => S754_nan
     end) = S754_finite s m' e'
    /\ e <= e' <= e + 1
    /\ Zpos m' * 2 ^ (e' - e) = Zpos m.
Proof.
  intros Hm He.
  destruct (Z.eq_dec (Zpos m) (2 ^ 53)) as [E | NE].
  - assert (Em : m = (2 ^ 53)%positive) by (apply Pos2Z.inj; exact E).
    subst m. rewrite shr_fexp_54 by (try reflexivity; lia).
    cbn [shr_record_of_loc shr_1 shr_m Pos.pow]. 
    exists (2 ^ 52)%positive, (e + 1). split.
    + vm_compute (shr_m _).
      destruct (Z.leb_spec (e + 1) (emax - prec)) as [_|H];
        [reflexivity | unfold emax, prec in H; lia].
    + split; [lia|]. replace (e + 1 - e) with 1 by lia. reflexivity.
  - assert (Hd : Zpos (digits2_pos m) = 53)
      by (apply digits2_pos_unique; simpl Z.sub; lia).
    rewrite shr_fexp_53 by (try assumption; lia).
    cbn [shr_record_of_loc shr_m]. exists m, e. split.
    + destruct (Z.leb_spec e (emax - prec)) as [_|H];
        [reflexivity | unfold emax, prec in H; lia].
    + split; [lia|]. rewrite Z.sub_diag. simpl. lia.
Qed.

Lemma round_nearest_even_cases (m : Z) (l : location) :
  round_nearest_even m l = m
  \/ (round_nearest_even m l = m + 1 /\ l <> loc_Exact).
Proof.
  destruct l as [|[]]; simpl.
  - left. reflexivity.
  - destruct (Z.even m); [left; reflexivity|].
    right. split; [reflexivity | discriminate].
  - left. reflexivity.
  - right. split; [reflexivity | discriminate].
Qed.

(** [binary_round_aux] on a mantissa [q] of 53 bits: the result is a finite
    float whose value is [q * 2 ^ e] or one unit above, and [q * 2 ^ e]
    itself when the mantissa was exact. *)
Lemma round_aux_53 (s : bool) (q : positive) (e : Z) (l : location) :
  Zpos (digits2_pos q) = 53 -> -1074 <= e <= 970 ->
  exists m' e',
    binary_round_aux prec emax s (Zpos q) e l = S754_finite s m' e'
    /\ e <= e' <= e + 2
    /\ (Zpos m' * 2 ^ (e' - e) = Zpos q
        \/ (Zpos m' * 2 ^ (e' - e) = Zpos q + 1 /\ l <> loc_Exact)).
Proof.
  intros Hd He. unfold binary_round_aux.
  rewrite shr_fexp_53 by (try assumption; lia).
  rewrite loc_of_record_of_loc.
  replace (shr_m (shr_record_of_loc (Zpos q) l)) with (Zpos q)
    by (destruct l as [|[]]; reflexivity).
  pose proof (digits2_pos_spec q) as Hq. rewrite Hd in Hq. simpl Z.sub in Hq.
  destruct (round_nearest_even_cases (Zpos q) l) as [E | [E Hl]]; rewrite E.
  - destruct (round_finish s q e) as (m' & e' & -> & He' & Hv); [lia | lia |].
    exists m', e'. split; [reflexivity|]. split; [lia|]. left. exact Hv.
  - replace (Zpos q + 1) with (Zpos (q + 1)) by lia.
    destruct (round_finish s (q + 1) e) as (m' & e' & -> & He' & Hv);
      [lia | lia |].
    exists m', e'. split; [reflexivity|]. split; [lia|]. right.
    split; [lia | exact Hl].
Qed.

(** The same on a mantissa of 54 bits that is even whenever it is exact. *)
Lemma round_aux_54 (s : bool) (q : positive) (e : Z) (l : location) :
  Zpos (digits2_pos q) = 54 -> -1075 <= e <= 969 ->
  (l = loc_Exact -> Z.even (Zpos q) = true) ->
  exists m' e',
    binary_round_aux prec emax s (Zpos q) e l = S754_finite s m' e'
    /\ e <= e' <= e + 2
    /\ (Zpos m' * 2 ^ (e' - e) = Zpos q
        \/ (Zpos m' * 2 ^ (e' - e) = Zpos q + 1 /\ l <> loc_Exact)).
Proof.
  intros Hd He Hex. unfold binary_round_aux.
  rewrite shr_fexp_54 by (try assumption; lia).
  pose proof (digits2_pos_spec q) as Hq. rewrite Hd in Hq. simpl Z.sub in Hq.
  destruct q as [p | p |]; [| | simpl in Hq; lia].
  - (* odd: the dropped bit is set and something lies below it *)
    assert (Hl : l <> loc_Exact) by (intros ->; specialize (Hex eq_refl); discriminate).
    assert (Hr : round_nearest_even
                   (shr_m (shr_1 (shr_record_of_loc (Zpos p~1) l)))
                   (loc_of_shr_record (shr_1 (shr_record_of_loc (Zpos p~1) l)))
                 = Zpos (p + 1)).
    { destruct l as [|[]]; [congruence | | |]; cbn; f_equal; lia. }
    rewrite Hr.
    destruct (round_finish s (p + 1) (e + 1)) as (m' & e' & -> & He' & Hv);
      [lia | lia |].
    exists m', e'. split; [reflexivity|]. split; [lia|]. right.
    split; [|exact Hl].
    replace (e' - e) with (Z.succ (e' - (e + 1))) by lia.
    rewrite Z.pow_succ_r by lia. lia.
  - (* even: the dropped bit is clear *)
    assert (Hr : round_nearest_even
                   (shr_m (shr_1 (shr_record_of_loc (Zpos p~0) l)))
                   (loc_of_shr_record (shr_1 (shr_record_of_loc (Zpos p~0) l)))
                 = Zpos p).
    { destruct l as [|[]]; reflexivity. }
    rewrite Hr.
    destruct (round_finish s p (e + 1)) as (m' & e' & -> & He' & Hv);
      [lia | lia |].
    exists m', e'. split; [reflexivity|]. split; [lia|]. left.
    replace (e' - e) with (Z.succ (e' - (e + 1))) by lia.
    rewrite Z.pow_succ_r by lia. lia.
Qed.

Lemma new_location_5 (r : Z) :
  0 <= r < 5 ->
  (r = 0 /\ new_location 5 r = loc_Exact)
  \/ (r <> 0 /\ new_location 5 r <> loc_Exact).
Proof.
  intros Hr. unfold new_location. change (Z.even 5) with false.
  cbn match. unfold new_location_odd.
  destruct (Z.eqb_spec r 0) as [-> | Hne]; [left | right];
    (split; [assumption || reflexivity | try reflexivity; discriminate]).
Qed.

(** Quotient and ceiling of [v / t] from those of [p / 5], when [v] is the
    truncation of [p * t / 5] or the next integer. *)
Lemma scaled_quotient (p t q r v : Z) :
  0 <= p -> 8 <= t -> p * t = 5 * q + r -> 0 <= r < 5 ->
  (v = q \/ (v = q + 1 /\ r <> 0)) ->
  v / t = p / 5 /\ (- v) / t = (- p) / 5.
Proof.
  intros Hp Ht Hq Hr Hv.
  pose proof (Z.div_mod p 5 ltac:(lia)) as Hp5.
  pose proof (Z.mod_pos_bound p 5 ltac:(lia)) as Hrho.
  set (n := p / 5) in *. set (rho := p mod 5) in *.
  assert (Hnt : p * t = 5 * (n * t) + rho * t) by (rewrite Hp5 at 1; ring).
  set (nt := n * t) in *.
  assert (Hc : rho = 0 \/ rho = 1 \/ rho = 2 \/ rho = 3 \/ rho = 4) by lia.
  split.
  - symmetry. apply Z.div_unique with (r := v - nt).
    + left. destruct Hc as [E|[E|[E|[E|E]]]]; rewrite E in *; lia.
    + unfold nt. lia.
  - destruct (Z.eq_dec rho 0) as [E0 | NE0].
    + rewrite E0 in *.
      assert (r = 0) by lia. assert (v = nt) by lia. subst v.
      assert (Ep : p = 5 * n) by lia.
      rewrite Ep. unfold nt.
      replace (- (n * t)) with ((- n) * t) by ring.
      replace (- (5 * n)) with ((- n) * 5) by ring.
      rewrite !Z.div_mul by lia. reflexivity.
    + transitivity (- n - 1).
      * symmetry. apply Z.div_unique with (r := nt + t - v).
        -- left. destruct Hc as [E|[E|[E|[E|E]]]]; rewrite E in *; lia.
        -- unfold nt. lia.
      * apply Z.div_unique with (r := 5 - rho); lia.
Qed.

(** The correctly rounded [p / 5] for [p] below [2 ^ 53]: a finite float
    with a negative exponent whose floor and ceiling are those of the exact
    quotient. *)
Lemma truediv5_finite (s : bool) (p : positive) :
  Zpos p < 2 ^ 53 ->
  exists m' e',
    SFdiv prec emax (S754_finite s p 0) (S754_finite false 5 0)
    = S754_finite s m' e'
    /\ e' < 0
    /\ Zpos m' / 2 ^ (- e') = Zpos p / 5
    /\ Zneg m' / 2 ^ (- e') = Zneg p / 5.
Proof.
  intros Hp.
  pose proof (digits2_pos_spec p) as Hdp.
  pose proof (Pos2Z.is_pos (digits2_pos p)) as Hdpos.
  set (d := Zpos (digits2_pos p)) in *.
  assert (Hd : d <= 53).
  { destruct (Z_lt_le_dec 53 d) as [Hlt|]; [|assumption].
    assert (2 ^ 53 <= 2 ^ (d - 1)) by (apply Z.pow_le_mono_r; lia). lia. }
  unfold SFdiv, SFdiv_core_binary. cbv zeta.
  change (Zdigits2 (Zpos p)) with d. change (Zdigits2 5) with 3.
  replace (Z.min (fexp prec emax (d + 0 - (3 + 0))) (0 - 0)) with (d - 56)
    by (unfold fexp, emin, prec, emax; lia).
  replace (0 - 0 - (d - 56)) with (56 - d) by lia.
  destruct (56 - d) as [|sh|sh] eqn:Esh; [lia | | lia].
  rewrite Z.shiftl_mul_pow2 by lia. rewrite <- Esh.
  set (t := 2 ^ (56 - d)).
  assert (Ht : 8 <= t).
  { change 8 with (2 ^ 3). apply Z.pow_le_mono_r; lia. }
  assert (Hm : 2 ^ 55 <= Zpos p * t < 2 ^ 56).
  { replace 55 with ((d - 1) + (56 - d)) by lia.
    replace 56 with (d + (56 - d)) at 2 by lia.
    rewrite !Z.pow_add_r by lia. fold t. nia. }
  pose proof (Z_div_mod (Zpos p * t) 5 ltac:(lia)) as Hdiv.
  destruct (Z.div_eucl (Zpos p * t) 5) as [q r]. destruct Hdiv as [Hq Hr].
  assert (Hqr : 2 ^ 52 <= q < 2 ^ 54) by (simpl in *; lia).
  destruct q as [|q|q]; [simpl in Hqr; lia | | simpl in Hqr; lia].
  rewrite xorb_false_r.
  assert (Hres : exists m' e',
             binary_round_aux prec emax s (Zpos q) (d - 56) (new_location 5 r)
             = S754_finite s m' e'
             /\ d - 56 <= e' <= d - 56 + 2
             /\ (Zpos m' * 2 ^ (e' - (d - 56)) = Zpos q
                 \/ (Zpos m' * 2 ^ (e' - (d - 56)) = Zpos q + 1
                     /\ new_location 5 r <> loc_Exact))).
  { destruct (Z_lt_le_dec (Zpos q) (2 ^ 53)) as [Hlt | Hge].
    - apply round_aux_53; [|lia].
      apply digits2_pos_unique. simpl Z.sub. lia.
    - apply round_aux_54; [|lia|].
      + apply digits2_pos_unique. simpl Z.sub. lia.
      + intros Hex.
        destruct (new_location_5 r Hr) as [[-> _] | [_ Hn]]; [|congruence].
        assert (Hev : Z.even (Zpos p * t) = true).
        { unfold t. replace (56 - d) with (Z.succ (55 - d)) by lia.
          rewrite Z.pow_succ_r by lia.
          rewrite !Z.even_mul. simpl. apply orb_true_r. }
        rewrite Hq, Z.add_0_r, Z.even_mul in Hev. exact Hev. }
  destruct Hres as (m' & e' & -> & He' & Hv).
  exists m', e'. split; [reflexivity|]. split; [lia|].
  set (k := e' - (d - 56)) in *.
  assert (Hpow : 2 ^ (56 - d) = 2 ^ (- e') * 2 ^ k).
  { rewrite <- Z.pow_add_r by (unfold k; lia). f_equal. unfold k. lia. }
  assert (Hk : 0 < 2 ^ k) by (apply Z.pow_pos_nonneg; unfold k; lia).
  assert (He2 : 0 < 2 ^ (- e')) by (apply Z.pow_pos_nonneg; lia).
  set (v := Zpos m' * 2 ^ k) in *.
  assert (Hv' : v = Zpos q \/ (v = Zpos q + 1 /\ r <> 0)).
  { destruct Hv as [Hv | [Hv Hl]]; [left; exact Hv | right; split; [exact Hv|]].
    destruct (new_location_5 r Hr) as [[_ E] | [Hn _]]; [congruence | exact Hn]. }
  destruct (scaled_quotient (Zpos p) t (Zpos q) r v) as [H1 H2];
    [lia | exact Ht | exact Hq | exact Hr | exact Hv' |].
  unfold t in H1, H2. rewrite Hpow in H1, H2. unfold v in H1, H2.
  rewrite Z.div_mul_cancel_r in H1 by lia.
  replace (- (Zpos m' * 2 ^ k)) with (Zneg m' * 2 ^ k) in H2 by lia.
  rewrite Z.div_mul_cancel_r in H2 by lia.
  split; [exact H1 | exact H2].
Qed.

(** [float(z)] for [z] below [2 ^ 53] in size is exact. *)
Lemma float_of_int_exact (s : bool) (p : positive) :
  Zpos p < 2 ^ 53 ->
  exists m' e',
    binary_round prec emax s p 0 = S754_finite s m' e'
    /\ ((0 <= e' /\ Zpos m' * 2 ^ e' = Zpos p)
        \/ (e' < 0 /\ Zpos m' = Zpos p * 2 ^ (- e'))).
Proof.
  intros Hp.
  pose proof (digits2_pos_spec p) as Hdp.
  pose proof (Pos2Z.is_pos (digits2_pos p)) as Hdpos.
  unfold binary_round.
  set (d := Zpos (digits2_pos p)) in *.
  assert (Hd : d <= 53).
  { destruct (Z_lt_le_dec 53 d) as [Hlt|]; [|assumption].
    assert (2 ^ 53 <= 2 ^ (d - 1)) by (apply Z.pow_le_mono_r; lia). lia. }
  replace (fexp prec emax (d + 0)) with (d - 53)
    by (unfold fexp, emin, prec, emax; lia).
  assert (Hal : exists mz,
             shl_align p 0 (d - 53) = (mz, d - 53)
             /\ Zpos mz = Zpos p * 2 ^ (53 - d)).
  { unfold shl_align. destruct (d - 53 - 0) as [|k|k] eqn:Ek; [| lia |].
    - exists p. replace (d - 53) with 0 by lia. split; [reflexivity|].
      replace (53 - d) with 0 by lia. simpl. lia.
    - eexists. split; [reflexivity|].
      change (Pos.iter xO p k) with (shift_pos k p).
      rewrite shift_pos_correct.
      change (Z.pow_pos 2 k) with (2 ^ Zpos k).
      replace (53 - d) with (Zpos k) by lia. ring. }
  destruct Hal as (mz & -> & Hmz).
  assert (Hmz53 : 2 ^ 52 <= Zpos mz < 2 ^ 53).
  { assert (E1 : 2 ^ 52 = 2 ^ (d - 1) * 2 ^ (53 - d))
      by (rewrite <- Z.pow_add_r by lia; f_equal; lia).
    assert (E2 : 2 ^ 53 = 2 ^ d * 2 ^ (53 - d))
      by (rewrite <- Z.pow_add_r by lia; f_equal; lia).
    assert (0 < 2 ^ (53 - d)) by (apply Z.pow_pos_nonneg; lia).
    rewrite Hmz, E1, E2. nia. }
  destruct (round_aux_53 s mz (d - 53) loc_Exact)
    as (m' & e' & -> & He' & [Hv | [_ Hl]]);
    [apply digits2_pos_unique; simpl Z.sub; lia | lia | | congruence].
  exists m', e'. split; [reflexivity|].
  rewrite Hmz in Hv.
  destruct (Z_lt_le_dec e' 0) as [Hneg | Hnn]; [right | left]; split; try lia.
  - assert (Hk : 0 < 2 ^ (e' - (d - 53))) by (apply Z.pow_pos_nonneg; lia).
    replace (53 - d) with ((- e') + (e' - (d - 53))) in Hv by lia.
    rewrite Z.pow_add_r in Hv by lia. nia.
  - assert (Hk : 0 < 2 ^ (53 - d)) by (apply Z.pow_pos_nonneg; lia).
    replace (e' - (d - 53)) with (e' + (53 - d)) in Hv by lia.
    rewrite Z.pow_add_r in Hv by lia. nia.
Qed.

Lemma format_4f_integer (s : bool) (m' p : positive) (e' : Z) :
  (0 <= e' /\ Zpos m' * 2 ^ e' = Zpos p)
  \/ (e' < 0 /\ Zpos m' = Zpos p * 2 ^ (- e')) ->
  format_4f (S754_finite s m' e')
  = (if s then u "-" else u "") ++ str_of_Z (Zpos p) ++ u ".0000".
Proof.
  intros H. unfold format_4f.
  assert (Hn : (if 0 <=? e' then Zpos m' * 2 ^ e' * 10000
                else round_half_even (Zpos m' * 10000) (2 ^ (- e')))
               = Zpos p * 10000).
  { destruct H as [[He Hv] | [He Hv]].
    - destruct (Z.leb_spec 0 e'); [|lia]. rewrite Hv. reflexivity.
    - destruct (Z.leb_spec 0 e'); [lia|]. rewrite Hv.
      assert (Hden : 0 < 2 ^ (- e')) by (apply Z.pow_pos_nonneg; lia).
      unfold round_half_even.
      replace (Zpos p * 2 ^ (- e') * 10000)
        with (Zpos p * 10000 * 2 ^ (- e')) by ring.
      rewrite Z.div_mul, Z.mod_mul by lia.
      destruct (Z.compare_spec (2 * 0) (2 ^ (- e'))); [lia | reflexivity | lia]. }
  rewrite Hn, Z.div_mul, Z.mod_mul by lia. reflexivity.
Qed.

(** [f'{z:.4f}'] for an [int] below [2 ^ 53] in size. *)
Lemma human_of_int (z : Z) :
  - 2 ^ 53 < z < 2 ^ 53 ->
  human_of (NumInt z)
  = Ok ((if z <? 0 then u "-" else u "") ++ str_of_Z (Z.abs z) ++ u ".0000").
Proof.
  intros Hz. unfold human_of, float_of_int, binary_normalize.
  destruct z as [|p|p].
  - reflexivity.
  - destruct (float_of_int_exact false p) as (m' & e' & -> & Hv); [lia|].
    cbn [is_infinite res_bind]. rewrite (format_4f_integer _ _ p _ Hv).
    reflexivity.
  - destruct (float_of_int_exact true p) as (m' & e' & -> & Hv); [lia|].
    cbn [is_infinite res_bind]. rewrite (format_4f_integer _ _ p _ Hv).
    reflexivity.
Qed.

(** [math.floor(z / 5)] and [math.ceil(z / 5)] for an [int] below [2 ^ 53]
    in size are the floor and the ceiling of the exact quotient. *)
Lemma floor_ceil_div5 (z : Z) :
  - 2 ^ 53 < z < 2 ^ 53 ->
  (let? q := div5 (NumInt z) in math_floor q) = Ok (z / 5)
  /\ (let? q := div5 (NumInt z) in math_ceil q) = Ok (ceil_div z 5).
Proof.
  intros Hz. unfold div5, int_truediv, ceil_div.
  change (exact_int 5) with (S754_finite false 5 0).
  destruct z as [|p|p].
  - split; reflexivity.
  - cbn [exact_int].
    destruct (truediv5_finite false p) as (m' & e' & -> & He & H1 & H2); [lia|].
    cbn [is_infinite res_bind math_floor math_ceil].
    destruct (Z.leb_spec 0 e'); [lia|].
    change (- Zpos m') with (Zneg m'). change (- Zpos p) with (Zneg p).
    rewrite H1, H2. split; reflexivity.
  - cbn [exact_int].
    destruct (truediv5_finite true p) as (m' & e' & -> & He & H1 & H2); [lia|].
    cbn [is_infinite res_bind math_floor math_ceil].
    destruct (Z.leb_spec 0 e'); [lia|].
    change (- Zneg m') with (Zpos m'). change (- Zneg p) with (Zpos p).
    rewrite H1, H2. split; reflexivity.
Qed.

(** ** Binary64 arithmetic on [float] operands *)

Lemma c5_eq : binary_normalize prec emax 5 0 false = c5.
Proof. vm_compute. reflexivity. Qed.

Lemma c100_eq : binary_normalize prec emax 100 0 false = c100.
Proof. vm_compute. reflexivity. Qed.

Lemma shr_1_m (mrs : shr_record) :
  0 <= shr_m mrs -> shr_m (shr_1 mrs) = shr_m mrs / 2.
Proof.
  destruct mrs as [m r s]. cbn [shr_m]. intros Hm.
  destruct m as [|[p|p|]|p]; cbn [shr_1 shr_m]; try lia.
  - reflexivity.
  - rewrite Pos2Z.inj_xI. apply Z.div_unique with (r := 1); lia.
  - rewrite Pos2Z.inj_xO. apply Z.div_unique with (r := 0); lia.
  - reflexivity.
Qed.

Lemma iter_shr_1_m (n : positive) (mrs : shr_record) :
  0 <= shr_m mrs ->
  shr_m (SpecFloat.iter_pos shr_1 n mrs) = shr_m mrs / 2 ^ Zpos n.
Proof.
  revert mrs.
  induction n as [n IH | n IH |]; intros mrs Hm; cbn [SpecFloat.iter_pos].
  - assert (H1 : 0 <= shr_m (shr_1 mrs))
      by (rewrite shr_1_m by assumption; apply Z.div_pos; lia).
    assert (H2 : 0 <= shr_m (SpecFloat.iter_pos shr_1 n (shr_1 mrs)))
      by (rewrite IH by assumption; apply Z.div_pos; lia).
    rewrite IH by assumption. rewrite IH by assumption.
    rewrite shr_1_m by assumption.
    rewrite !Z.div_div by lia.
    f_equal. replace (Zpos n~1) with (1 + Zpos n + Zpos n) by lia.
    rewrite !Z.pow_add_r by lia. change (2 ^ 1) with 2. ring.
  - assert (H2 : 0 <= shr_m (SpecFloat.iter_pos shr_1 n mrs))
      by (rewrite IH by assumption; apply Z.div_pos; lia).
    rewrite IH by assumption. rewrite IH by assumption.
    rewrite !Z.div_div by lia.
    f_equal. replace (Zpos n~0) with (Zpos n + Zpos n) by lia.
    rewrite Z.pow_add_r by lia. reflexivity.
  - apply shr_1_m. assumption.
Qed.

Lemma shr_fexp_wide (M n : positive) (E : Z) :
  Zpos (digits2_pos M) = 53 + Zpos n -> -1074 <= Zpos n + E ->
  shr_fexp prec emax (Zpos M) E loc_Exact
  = (SpecFloat.iter_pos shr_1 n (shr_record_of_loc (Zpos M) loc_Exact),
     E + Zpos n).
Proof.
  intros Hd He. unfold shr_fexp, Zdigits2. rewrite Hd.
  replace (fexp prec emax (53 + Zpos n + E) - E) with (Zpos n)
    by (unfold fexp, emin, prec, emax; lia).
  reflexivity.
Qed.

Lemma round_finish_normal (s : bool) (m : positive) (e : Z) :
  2 ^ 52 <= Zpos m <= 2 ^ 53 -> -1074 <= e <= 970 ->
  exists m' e',
    (let '(mrs, e2) := shr_fexp prec emax (Zpos m) e loc_Exact in
     match shr_m mrs with
     | Z0 => S754_zero s
     | Zpos m0 =>
         if e2 <=? emax - prec then S754_finite s m0 e2 else S754_infinity s
     | Zneg _ => S754_nan
     end) = S754_finite s m' e'
    /\ 2 ^ 52 <= Zpos m' < 2 ^ 53
    /\ e <= e' <= e + 1.
Proof.
  intros Hm He.
  destruct (Z.eq_dec (Zpos m) (2 ^ 53)) as [E | NE].
  - assert (Em : m = (2 ^ 53)%positive) by (apply Pos2Z.inj; exact E).
    subst m. rewrite shr_fexp_54 by (try reflexivity; lia).
    cbn [shr_record_of_loc shr_1 shr_m Pos.pow].
    exists (2 ^ 52)%positive, (e + 1). split.
    + vm_compute (shr_m _).
      destruct (Z.leb_spec (e + 1) (emax - prec)) as [_|H];
        [reflexivity | unfold emax, prec in H; lia].
    + split; [simpl; lia | lia].
  - assert (Hd : Zpos (digits2_pos m) = 53)
      by (apply digits2_pos_unique; simpl Z.sub; lia).
    rewrite shr_fexp_53 by (try assumption; lia).
    cbn [shr_record_of_loc shr_m]. exists m, e. split.
    + destruct (Z.leb_spec e (emax - prec)) as [_|H];
        [reflexivity | unfold emax, prec in H; lia].
    + split; lia.
Qed.

(** [binary_round_aux] on an exact mantissa of 53 bits or more, in the
    normal range: a finite float with a full mantissa. *)
Lemma round_aux_wide (s : bool) (M : positive) (E : Z) :
  53 <= Zpos (digits2_pos M) ->
  -1074 <= Zpos (digits2_pos M) + E - 53 <= 969 ->
  exists m' e',
    binary_round_aux prec emax s (Zpos M) E loc_Exact = S754_finite s m' e'
    /\ 2 ^ 52 <= Zpos m' < 2 ^ 53
    /\ Zpos (digits2_pos M) + E - 53 <= e' <= Zpos (digits2_pos M) + E - 52.
Proof.
  intros HD HE. pose proof (digits2_pos_spec M) as HM.
  set (D := Zpos (digits2_pos M)) in *.
  unfold binary_round_aux.
  destruct (D - 53) as [|n|n] eqn:En; [| | lia].
  - assert (Hd : D = 53) by lia. rewrite Hd in HM. simpl Z.sub in HM.
    rewrite shr_fexp_53 by (try assumption; lia).
    cbn [shr_record_of_loc shr_m loc_of_shr_record round_nearest_even].
    destruct (round_finish_normal s M E) as (m' & e' & -> & Hm' & He');
      [lia | lia |].
    exists m', e'. split; [reflexivity|]. split; [exact Hm' | lia].
  - assert (Hd : D = 53 + Zpos n) by lia.
    rewrite (shr_fexp_wide M n E) by (try assumption; lia).
    set (rec := SpecFloat.iter_pos shr_1 n (shr_record_of_loc (Zpos M) loc_Exact)).
    assert (Hq : shr_m rec = Zpos M / 2 ^ Zpos n).
    { unfold rec. rewrite iter_shr_1_m; [reflexivity | simpl; lia]. }
    assert (Hp : 0 < 2 ^ Zpos n) by (apply Z.pow_pos_nonneg; lia).
    assert (Hq0 : 2 ^ 52 <= shr_m rec < 2 ^ 53).
    { rewrite Hq. rewrite Hd in HM.
      replace (53 + Zpos n - 1) with (52 + Zpos n) in HM by lia.
      rewrite !Z.pow_add_r in HM by lia. split.
      - apply Z.div_le_lower_bound; lia.
      - apply Z.div_lt_upper_bound; lia. }
    destruct (round_nearest_even_cases (shr_m rec) (loc_of_shr_record rec))
      as [Er | [Er _]]; rewrite Er.
    + destruct (shr_m rec) as [|q|q]; [lia | | lia].
      destruct (round_finish_normal s q (E + Zpos n)) as (m' & e' & -> & Hm' & He');
        [lia | lia |].
      exists m', e'. split; [reflexivity|]. split; [exact Hm' | lia].
    + destruct (shr_m rec) as [|q|q]; [lia | | lia].
      replace (Zpos q + 1) with (Zpos (q + 1)) by lia.
      destruct (round_finish_normal s (q + 1) (E + Zpos n))
        as (m' & e' & -> & Hm' & He'); [lia | lia |].
      exists m', e'. split; [reflexivity|]. split; [exact Hm' | lia].
Qed.

Lemma shl_align_fst (mx : positive) (ex ez : Z) :
  ez <= ex -> Zpos (fst (shl_align mx ex ez)) = Zpos mx * 2 ^ (ex - ez).
Proof.
  intros H. unfold shl_align.
  destruct (ez - ex) as [|k|k] eqn:Ek; cbn [fst].
  - replace (ex - ez) with 0 by lia. simpl. lia.
  - lia.
  - change (Pos.iter xO mx k) with (shift_pos k mx).
    rewrite shift_pos_correct.
    change (Z.pow_pos 2 k) with (2 ^ Zpos k).
    replace (ex - ez) with (Zpos k) by lia. ring.
Qed.

(** [binary_round] in the normal range. *)
Lemma binary_round_normal (s : bool) (M : positive) (E : Z) :
  -1074 <= Zpos (digits2_pos M) + E - 53 <= 969 ->
  exists m' e',
    binary_round prec emax s M E = S754_finite s m' e'
    /\ 2 ^ 52 <= Zpos m' < 2 ^ 53
    /\ Zpos (digits2_pos M) + E - 53 <= e' <= Zpos (digits2_pos M) + E - 52.
Proof.
  intros HE. pose proof (digits2_pos_spec M) as HM.
  pose proof (Pos2Z.is_pos (digits2_pos M)) as HDpos.
  unfold binary_round.
  set (D := Zpos (digits2_pos M)) in *.
  replace (fexp prec emax (D + E)) with (D + E - 53)
    by (unfold fexp, emin, prec, emax; lia).
  destruct (Z_lt_le_dec D 53) as [Hlt | Hge].
  - pose proof (shl_align_fst M E (D + E - 53) ltac:(lia)) as Hf.
    assert (Hs : snd (shl_align M E (D + E - 53)) = D + E - 53).
    { unfold shl_align. destruct (D + E - 53 - E) eqn:Ek; try lia. reflexivity. }
    destruct (shl_align M E (D + E - 53)) as [mz ez]. cbn [fst snd] in Hf, Hs.
    subst ez. replace (E - (D + E - 53)) with (53 - D) in Hf by lia.
    assert (Hmz : 2 ^ 52 <= Zpos mz < 2 ^ 53).
    { assert (E1 : 2 ^ 52 = 2 ^ (D - 1) * 2 ^ (53 - D))
        by (rewrite <- Z.pow_add_r by lia; f_equal; lia).
      assert (E2 : 2 ^ 53 = 2 ^ D * 2 ^ (53 - D))
        by (rewrite <- Z.pow_add_r by lia; f_equal; lia).
      assert (0 < 2 ^ (53 - D)) by (apply Z.pow_pos_nonneg; lia).
      rewrite Hf, E1, E2. nia. }
    assert (Hdz : Zpos (digits2_pos mz) = 53)
      by (apply digits2_pos_unique; simpl Z.sub; lia).
    destruct (round_aux_wide s mz (D + E - 53)) as (m' & e' & -> & Hm' & He');
      [lia | lia |].
    exists m', e'. split; [reflexivity|]. split; [exact Hm' | lia].
  - assert (Hal : shl_align M E (D + E - 53) = (M, E)).
    { unfold shl_align. destruct (D + E - 53 - E) eqn:Ek; try lia; reflexivity. }
    rewrite Hal.
    destruct (round_aux_wide s M E) as (m' & e' & -> & Hm' & He');
      [fold D; lia | fold D; lia |].
    exists m', e'. split; [reflexivity|]. split; [exact Hm' | exact He'].
Qed.

Lemma new_location_fifth (r0 : Z) :
  (r0 = 0 /\ new_location 5629499534213120 r0 = loc_Exact)
  \/ (r0 <> 0 /\ new_location 5629499534213120 r0 <> loc_Exact).
Proof.
  unfold new_location. change (Z.even 5629499534213120) with true.
  cbn match. unfold new_location_even.
  destruct (Z.eqb_spec r0 0) as [-> | Hne]; [left | right];
    (split; [assumption || reflexivity | try reflexivity; discriminate]).
Qed.

(** The correctly rounded [x / 5.0] for a double [x = p * 2 ^ e] with
    [e <= 0], above the subnormal range: a finite float with a negative
    exponent whose floor and ceiling are those of the exact quotient. *)
Lemma fifth_finite (s : bool) (p : positive) (e : Z) :
  Zpos p < 2 ^ 53 -> e <= 0 -> -1018 <= Zpos (digits2_pos p) + e ->
  exists m' e',
    SFdiv prec emax (S754_finite s p e) c5 = S754_finite s m' e'
    /\ e' < 0
    /\ Zpos m' / 2 ^ (- e') = Zpos p / (5 * 2 ^ (- e))
    /\ Zneg m' / 2 ^ (- e') = Zneg p / (5 * 2 ^ (- e)).
Proof.
  intros Hp He Hlo.
  pose proof (digits2_pos_spec p) as Hdp.
  pose proof (Pos2Z.is_pos (digits2_pos p)) as Hdpos.
  set (d := Zpos (digits2_pos p)) in *.
  assert (Hd : d <= 53).
  { destruct (Z_lt_le_dec 53 d) as [Hlt|]; [|assumption].
    assert (2 ^ 53 <= 2 ^ (d - 1)) by (apply Z.pow_le_mono_r; lia). lia. }
  unfold c5, SFdiv, SFdiv_core_binary. cbv zeta.
  change (Zdigits2 (Zpos p)) with d.
  change (Zdigits2 5629499534213120) with 53.
  replace (Z.min (fexp prec emax (d + e - (53 + -50))) (e - -50))
    with (d + e - 56) by (unfold fexp, emin, prec, emax; lia).
  replace (e - -50 - (d + e - 56)) with (106 - d) by lia.
  destruct (106 - d) as [|sh|sh] eqn:Esh; [lia | | lia].
  rewrite Z.shiftl_mul_pow2 by lia. rewrite <- Esh.
  set (t := 2 ^ (56 - d)).
  assert (Ht : 8 <= t).
  { change 8 with (2 ^ 3). apply Z.pow_le_mono_r; lia. }
  assert (Esplit : 2 ^ (106 - d) = t * 1125899906842624).
  { replace (106 - d) with ((56 - d) + 50) by lia.
    rewrite Z.pow_add_r by lia. reflexivity. }
  rewrite Esplit.
  assert (Hm : 2 ^ 55 <= Zpos p * t < 2 ^ 56).
  { replace 55 with ((d - 1) + (56 - d)) by lia.
    replace 56 with (d + (56 - d)) at 2 by lia.
    rewrite !Z.pow_add_r by lia. fold t. nia. }
  pose proof (Z_div_mod (Zpos p * (t * 1125899906842624)) 5629499534213120
                ltac:(lia)) as Hdiv.
  destruct (Z.div_eucl (Zpos p * (t * 1125899906842624)) 5629499534213120)
    as [q r0].
  destruct Hdiv as [Hq0 Hr0].
  set (r := Zpos p * t - 5 * q).
  assert (Er0 : r0 = 1125899906842624 * r) by (unfold r; lia).
  assert (Hq : Zpos p * t = 5 * q + r) by (unfold r; lia).
  assert (Hr : 0 <= r < 5) by lia.
  assert (Hqr : 2 ^ 52 <= q < 2 ^ 54) by (simpl in *; lia).
  destruct q as [|q|q]; [simpl in Hqr; lia | | simpl in Hqr; lia].
  rewrite xorb_false_r.
  assert (Hres : exists m' e',
             binary_round_aux prec emax s (Zpos q) (d + e - 56)
               (new_location 5629499534213120 r0)
             = S754_finite s m' e'
             /\ d + e - 56 <= e' <= d + e - 56 + 2
             /\ (Zpos m' * 2 ^ (e' - (d + e - 56)) = Zpos q
                 \/ (Zpos m' * 2 ^ (e' - (d + e - 56)) = Zpos q + 1
                     /\ new_location 5629499534213120 r0 <> loc_Exact))).
  { destruct (Z_lt_le_dec (Zpos q) (2 ^ 53)) as [Hlt | Hge].
    - apply round_aux_53; [|lia].
      apply digits2_pos_unique. simpl Z.sub. lia.
    - apply round_aux_54; [|lia|].
      + apply digits2_pos_unique. simpl Z.sub. lia.
      + intros Hex.
        destruct (new_location_fifth r0) as [[E0 _] | [_ Hn]]; [|congruence].
        assert (Hev : Z.even (Zpos p * t) = true).
        { unfold t. replace (56 - d) with (Z.succ (55 - d)) by lia.
          rewrite Z.pow_succ_r by lia.
          rewrite !Z.even_mul. simpl. apply orb_true_r. }
        assert (Er : r = 0) by lia.
        rewrite Hq, Er, Z.add_0_r, Z.even_mul in Hev. exact Hev. }
  destruct Hres as (m' & e' & -> & He' & Hv).
  exists m', e'. split; [reflexivity|]. split; [lia|].
  set (k := e' - (d + e - 56)) in *.
  assert (Hk : 0 < 2 ^ k) by (apply Z.pow_pos_nonneg; unfold k; lia).
  assert (He2 : 0 < 2 ^ (- e')) by (apply Z.pow_pos_nonneg; lia).
  assert (He3 : 0 < 2 ^ (- e)) by (apply Z.pow_pos_nonneg; lia).
  assert (Hpow : 2 ^ (- e') * 2 ^ k = t * 2 ^ (- e)).
  { unfold t. rewrite <- !Z.pow_add_r by (unfold k; lia).
    f_equal. unfold k. lia. }
  set (v := Zpos m' * 2 ^ k) in *.
  assert (Hv' : v = Zpos q \/ (v = Zpos q + 1 /\ r <> 0)).
  { destruct Hv as [Hv | [Hv Hl]]; [left; exact Hv | right; split; [exact Hv|]].
    destruct (new_location_fifth r0) as [[_ E] | [Hn _]]; [congruence | lia]. }
  destruct (scaled_quotient (Zpos p) t (Zpos q) r v) as [H1 H2];
    [lia | exact Ht | exact Hq | exact Hr | exact Hv' |].
  split.
  - rewrite <- (Z.div_mul_cancel_r (Zpos m') (2 ^ (- e')) (2 ^ k)) by lia.
    fold v. rewrite Hpow, <- Z.div_div by lia. rewrite H1.
    rewrite Z.div_div by lia. reflexivity.
  - rewrite <- (Z.div_mul_cancel_r (Zneg m') (2 ^ (- e')) (2 ^ k)) by lia.
    replace (Zneg m' * 2 ^ k) with (- v) by (unfold v; lia).
    rewrite Hpow, <- Z.div_div by lia. rewrite H2.
    rewrite Z.div_div by lia. reflexivity.
Qed.

(** [100.0 - x] for a normal double [x] of size between [2 ^ -1019] and
    [2 ^ 51]: zero, or again a normal double, of size between [2 ^ -46]
    and [2 ^ 53]. *)
Lemma rest_finite (s : bool) (m : positive) (e : Z) :
  Zpos (digits2_pos m) = 53 -> -1071 <= e <= -2 ->
  SFsub prec emax c100 (S754_finite s m e) = S754_zero false
  \/ exists sy my ey,
       SFsub prec emax c100 (S754_finite s m e) = S754_finite sy my ey
       /\ 2 ^ 52 <= Zpos my < 2 ^ 53 /\ -98 <= ey <= 0.
Proof.
  intros Hd He.
  pose proof (digits2_pos_spec m) as Hm. rewrite Hd in Hm. simpl Z.sub in Hm.
  unfold c100, SFsub. cbv zeta.
  set (ez := Z.min (-46) e).
  rewrite (shl_align_fst _ (-46) ez) by (unfold ez; lia).
  rewrite (shl_align_fst m e ez) by (unfold ez; lia).
  cbn [cond_Zopp].
  set (A := 7036874417766400 * 2 ^ (-46 - ez)).
  set (B := Zpos m * 2 ^ (e - ez)).
  assert (Hbound : forall d : Z,
             d = A - B \/ d = A + B -> d <> 0 ->
             2 ^ (-46 - ez) <= Z.abs d < 2 ^ (52 - ez)).
  { intros d Hdd Hnz.
    destruct (Z_le_gt_dec (-46) e) as [Hge | Hlt].
    - assert (Eez : ez = -46) by (unfold ez; lia).
      unfold A, B. rewrite Eez in *. change (2 ^ (-46 - -46)) with 1.
      change (2 ^ (52 - -46)) with (2 ^ 53 * 2 ^ 45).
      assert (Hp : 1 <= 2 ^ (e - -46) <= 2 ^ 44).
      { split; [apply (Z.pow_le_mono_r 2 0); lia
               | apply Z.pow_le_mono_r; lia]. }
      unfold A, B in Hdd. rewrite Eez in Hdd.
      change (2 ^ (-46 - -46)) with 1 in Hdd.
      assert (HB : 0 < Zpos m * 2 ^ (e - -46) < 2 ^ 53 * 2 ^ 44) by nia.
      change (2 ^ 45) with (2 * 2 ^ 44).
      change (2 ^ 44) with 17592186044416 in *.
      change (2 ^ 53) with 9007199254740992 in *.
      lia.
    - assert (Eez : ez = e) by (unfold ez; lia).
      unfold A, B in Hdd. rewrite Eez in *. rewrite Z.sub_diag in Hdd.
      change (2 ^ 0) with 1 in Hdd.
      set (P := 2 ^ (-46 - e)) in *.
      assert (HP : 2 <= P)
        by (apply (Z.pow_le_mono_r 2 1); lia).
      replace (52 - e) with (98 + (-46 - e)) by lia.
      rewrite Z.pow_add_r by lia. fold P.
      change (2 ^ 98) with 316912650057057350374175801344.
      change (2 ^ 53) with 9007199254740992 in *.
      change (2 ^ 52) with 4503599627370496 in *.
      nia. }
  unfold binary_normalize.
  assert (Hgo : forall (sy : bool) (M : positive),
             (Zpos M = A - B \/ Zpos M = A + B
              \/ Zneg M = A - B \/ Zneg M = A + B) ->
             exists my ey,
               binary_round prec emax sy M ez = S754_finite sy my ey
               /\ 2 ^ 52 <= Zpos my < 2 ^ 53 /\ -98 <= ey <= 0).
  { intros sy M HM.
    assert (HMb : 2 ^ (-46 - ez) <= Zpos M < 2 ^ (52 - ez)).
    { destruct HM as [H | [H | [H | H]]].
      - specialize (Hbound (Zpos M) (or_introl H) ltac:(lia)). lia.
      - specialize (Hbound (Zpos M) (or_intror H) ltac:(lia)). lia.
      - specialize (Hbound (Zneg M) (or_introl H) ltac:(lia)). lia.
      - specialize (Hbound (Zneg M) (or_intror H) ltac:(lia)). lia. }
    pose proof (digits2_pos_spec M) as HD.
    pose proof (Pos2Z.is_pos (digits2_pos M)) as HDpos.
    set (D := Zpos (digits2_pos M)) in *.
    assert (Hup : D + ez <= 52).
    { assert (Hlt : 2 ^ (D - 1) < 2 ^ (52 - ez)) by lia.
      apply Z.pow_lt_mono_r_iff in Hlt; unfold ez in *; lia. }
    assert (Hdn : -45 <= D + ez).
    { assert (Hlt : 2 ^ (-46 - ez) < 2 ^ D) by lia.
      apply Z.pow_lt_mono_r_iff in Hlt; unfold ez in *; lia. }
    destruct (binary_round_normal sy M ez) as (my & ey & -> & Hmy & Hey);
      [fold D; lia |].
    fold D in Hey. exists my, ey. split; [reflexivity|]. split; [exact Hmy | lia]. }
  destruct s; cbn [cond_Zopp].
  - replace (A - - B) with (A + B) by lia.
    destruct (A + B) as [|M|M] eqn:EM.
    + left. reflexivity.
    + right. destruct (Hgo false M) as (my & ey & H); [lia|].
      exists false, my, ey. exact H.
    + right. destruct (Hgo true M) as (my & ey & H); [lia|].
      exists true, my, ey. exact H.
  - destruct (A - B) as [|M|M] eqn:EM.
    + left. reflexivity.
    + right. destruct (Hgo false M) as (my & ey & H); [lia|].
      exists false, my, ey. exact H.
    + right. destruct (Hgo true M) as (my & ey & H); [lia|].
      exists true, my, ey. exact H.
Qed.

(** [math.floor(x / 5)] for a moderate [float]. *)
Lemma blocks_of_float (f : spec_float) :
  moderate f = true -> blocks_of (NumFloat f) = Ok (floor_fifth f).
Proof.
  intros Hf. unfold blocks_of, div5. rewrite c5_eq. cbn [res_bind].
  destruct f as [sz | | | s m e]; try discriminate; [reflexivity|].
  cbn [moderate] in Hf.
  apply andb_prop in Hf. destruct Hf as [Hf He2].
  apply andb_prop in Hf. destruct Hf as [Hd He1].
  apply Z.eqb_eq in Hd. apply Z.leb_le in He1, He2.
  pose proof (digits2_pos_spec m) as Hm. rewrite Hd in Hm. simpl Z.sub in Hm.
  destruct (fifth_finite s m e) as (m' & e' & -> & He' & H1 & H2);
    [lia | lia | lia |].
  cbn [math_floor floor_fifth].
  destruct (Z.leb_spec 0 e'); [lia|].
  rewrite (Z.max_l 0 e), (Z.max_r 0 (- e)) by lia.
  change (2 ^ 0) with 1. rewrite Z.mul_1_r.
  destruct s; [rewrite H2 | rewrite H1]; reflexivity.
Qed.

(** [math.ceil(y / 5)] for a double [y] that is zero or normal with an
    exponent from -98 to 0. *)
Lemma ceil_fifth_normal (y : spec_float) :
  (y = S754_zero false
   \/ exists sy my ey, y = S754_finite sy my ey
                       /\ 2 ^ 52 <= Zpos my < 2 ^ 53 /\ -98 <= ey <= 0) ->
  math_ceil (SFdiv prec emax y c5) = Ok (ceil_fifth y).
Proof.
  intros [-> | (sy & my & ey & -> & Hmy & Hey)]; [reflexivity|].
  assert (Hd : Zpos (digits2_pos my) = 53)
    by (apply digits2_pos_unique; simpl Z.sub; lia).
  destruct (fifth_finite sy my ey) as (m' & e' & -> & He' & H1 & H2);
    [lia | lia | lia |].
  cbn [math_ceil ceil_fifth]. unfold ceil_div.
  destruct (Z.leb_spec 0 e'); [lia|].
  rewrite (Z.max_l 0 ey), (Z.max_r 0 (- ey)) by lia.
  change (2 ^ 0) with 1. rewrite Z.mul_1_r.
  destruct sy.
  - change (- Zneg m') with (Zpos m'). change (- Zneg my) with (Zpos my).
    rewrite H1. reflexivity.
  - change (- Zpos m') with (Zneg m'). change (- Zpos my) with (Zneg my).
    rewrite H2. reflexivity.
Qed.

(** [math.ceil((100 - x) / 5)] for a moderate [float]: the ceiling of the
    exact fifth of the difference as computed. *)
Lemma spaces_of_float (f : spec_float) :
  moderate f = true ->
  spaces_of (NumFloat f)
  = Ok (ceil_fifth (SFsub prec emax (binary_normalize prec emax 100 0 false) f)).
Proof.
  intros Hf. unfold spaces_of, sub_from_100, div5.
  rewrite c5_eq, c100_eq. cbn [res_bind].
  apply ceil_fifth_normal.
  destruct f as [sz | | | s m e]; try discriminate.
  - right. exists false, 7036874417766400%positive, (-46).
    split; [reflexivity|]. split; [simpl|]; lia.
  - cbn [moderate] in Hf.
    apply andb_prop in Hf. destruct Hf as [Hf He2].
    apply andb_prop in Hf. destruct Hf as [Hd He1].
    apply Z.eqb_eq in Hd. apply Z.leb_le in He1, He2.
    apply rest_finite; [exact Hd | lia].
Qed.

(** ** The progress bar *)

Lemma length_repeat_str (s : pystr) (n : Z) :
  length (repeat_str s n) = (Z.to_nat n * length s)%nat.
Proof.
  unfold repeat_str. induction (Z.to_nat n) as [| k IH]; [reflexivity|].
  cbn [repeat concat]. rewrite length_app, IH. reflexivity.
Qed.


Lemma blocks_of_int (z : Z) :
  - 2 ^ 53 < z < 2 ^ 53 -> blocks_of (NumInt z) = Ok (z / 5).
Proof. intros Hz. apply (floor_ceil_div5 z Hz). Qed.

Lemma spaces_of_int (z : Z) :
  - 2 ^ 53 + 100 < z < 2 ^ 53 + 100 ->
  spaces_of (NumInt z) = Ok (ceil_div (100 - z) 5).
Proof.
  intros Hz. unfold spaces_of. cbn [sub_from_100].
  apply (floor_ceil_div5 (100 - z)). lia.
Qed.

Lemma repeat_str_max (s : pystr) (n : Z) :
  repeat_str s n = concat (repeat s (Z.to_nat (Z.max 0 n))).
Proof.
  unfold repeat_str. destruct (Z.max_spec 0 n) as [[_ ->] | [Hn ->]];
    [reflexivity|].
  replace (Z.to_nat n) with (Z.to_nat 0); [reflexivity|]. lia.
Qed.

Lemma spinner_glyph (i : Z) :
  0 <= i <= 9 -> exists glyph, py_getitem spinner_frames i = Ok glyph.
Proof.
  intros Hi.
  assert (H : i = 0 \/ i = 1 \/ i = 2 \/ i = 3 \/ i = 4 \/ i = 5 \/ i = 6
              \/ i = 7 \/ i = 8 \/ i = 9) by lia.
  repeat (destruct H as [-> | H]; [eexists; reflexivity|]).
  subst i. eexists. reflexivity.
Qed.

Lemma py_repeat_ok {machine : Machine} (s : pystr) (n : Z) :
  index_sized n ->
  Z.of_nat (length (repeat_str s n)) <= str_limit ->
  Z.of_nat (length (repeat_str s n)) <= ssize_max ->
  py_repeat s n = Ok (repeat_str s n).
Proof.
  intros [Hlo Hhi] Hl Hs. unfold py_repeat.
  destruct (Z.ltb_spec n (- ssize_max - 1)); [lia|].
  destruct (Z.ltb_spec ssize_max n); [lia|]. cbn [orb].
  destruct (Z.ltb_spec n 1).
  { unfold repeat_str. replace (Z.to_nat n) with 0%nat by lia. reflexivity. }
  destruct (Z.eqb_spec n 1) as [-> | Hn].
  { unfold repeat_str. change (Z.to_nat 1) with 1%nat.
    cbn [repeat concat]. rewrite app_nil_r. reflexivity. }
  rewrite length_repeat_str in Hl, Hs.
  rewrite Nat2Z.inj_mul, Z2Nat.id in Hl, Hs by lia.
  destruct (Z.ltb_spec (ssize_max / n) (Z.of_nat (length s))) as [Hov|_].
  { assert (Z.of_nat (length s) <= ssize_max / n)
      by (apply Z.div_le_lower_bound; lia). lia. }
  destruct (Z.ltb_spec str_limit (Z.of_nat (length s) * n)); [lia|].
  reflexivity.
Qed.

Section ProgressBar.
Context {colours : Colours} {machine : Machine}.

Lemma progress_body_ok (i : Z) (msg : pyval) (perc : number)
    (m glyph human cells gap line : pystr) (blocks spaces : Z) :
  _parse msg = Ok m -> blocks_of perc = Ok blocks ->
  spaces_of perc = Ok spaces -> human_of perc = Ok human ->
  py_repeat (bg_blue (u " ")) blocks = Ok cells ->
  py_repeat (u " ") spaces = Ok gap ->
  py_getitem spinner_frames i = Ok glyph ->
  allocated (bar_text cells gap glyph human (blue m)) = Ok line ->
  progress_body i msg perc
  = ([Write (13%N :: CLEAR); Flush; Write line; Flush], Ok tt).
Proof.
  intros Hm Hb Hs Hh Hc Hg Hi Hl. unfold progress_body.
  rewrite Hm, Hb, Hs, Hh. rewrite !bind_lift_ok. rewrite !bind_tell.
  rewrite Hc, Hg, Hi. rewrite !bind_lift_ok. rewrite Hl. reflexivity.
Qed.

Lemma bar_text_length (cells gap glyph human message : pystr) :
  (length cells <= length (bar_text cells gap glyph human message))%nat
  /\ (length gap <= length (bar_text cells gap glyph human message))%nat.
Proof. unfold bar_text. rewrite !length_app. lia. Qed.

(** The arithmetic of [progress] on a percent in range. *)
Lemma progress_counts (perc : number) :
  in_range perc ->
  blocks_of perc = Ok (exact_floor_fifth perc)
  /\ spaces_of perc = Ok (exact_ceil_fifth (sub_from_100 perc))
  /\ human_of perc = Ok (four_decimals perc).
Proof.
  destruct perc as [z | f]; cbn [in_range]; intros H.
  - split; [apply blocks_of_int; lia|].
    split; [apply spaces_of_int; lia | apply human_of_int; lia].
  - split; [apply blocks_of_float; exact H|].
    split; [apply spaces_of_float; exact H | reflexivity].
Qed.

(** C4, as amended.  For a percent in range (an [int] below [2 ^ 53] in
    size, or a [float] that is zero or normal and of size from [2 ^ -1019]
    to below [2 ^ 51]) and a message that has a text: [blocks] is the
    floor of the exact [percent / 5], [spaces] the ceiling of the exact
    fifth of [100 - percent] (the difference as computed: exact for an
    [int], rounded to a double for a [float]), and the percent is shown
    with four decimals.  When moreover the bar can be built (both counts
    fit an index and the line is within what the machine allocates), the
    call returns normally after clearing the line and writing one bar with
    these two counts, the current spinner frame and the percent, where a
    count of zero or less shows as no glyph at all.  Percent 0 gives 0 and
    20, 100 gives 20 and 0, 47 gives 9 and 11, and so do 0.0, 100.0 and
    47.5; the counts are not clamped: -10 gives -2 blocks, 200 gives -20
    spaces. *)
Theorem progress_bar (self : Logger) (msg : pyval) (m : pystr)
    (perc : number) :
  _parse msg = Ok m ->
  0 <= spindex self <= 9 ->
  in_range perc ->
  blocks_of perc = Ok (exact_floor_fifth perc)
  /\ spaces_of perc = Ok (exact_ceil_fifth (sub_from_100 perc))
  /\ human_of perc = Ok (four_decimals perc)
  /\ (exists glyph,
        py_getitem spinner_frames (advance (spindex self)) = Ok glyph
        /\ (bar_fits (exact_floor_fifth perc)
              (exact_ceil_fifth (sub_from_100 perc))
              (bar_line (exact_floor_fifth perc)
                 (exact_ceil_fifth (sub_from_100 perc)) glyph
                 (four_decimals perc) (blue m)) ->
            snd (progress self msg perc)
            = ([Write (13%N :: CLEAR); Flush;
                Write (bar_line (exact_floor_fifth perc)
                         (exact_ceil_fifth (sub_from_100 perc)) glyph
                         (four_decimals perc) (blue m));
                Flush], Ok tt)))
  /\ (forall s n, repeat_str s n = concat (repeat s (Z.to_nat (Z.max 0 n))))
  /\ (blocks_of (NumInt 0) = Ok 0 /\ spaces_of (NumInt 0) = Ok 20)
  /\ (blocks_of (NumInt 100) = Ok 20 /\ spaces_of (NumInt 100) = Ok 0)
  /\ (blocks_of (NumInt 47) = Ok 9 /\ spaces_of (NumInt 47) = Ok 11)
  /\ (blocks_of (NumInt (-10)) = Ok (-2) /\ spaces_of (NumInt 200) = Ok (-20))
  /\ (blocks_of (NumFloat (S754_zero false)) = Ok 0
      /\ spaces_of (NumFloat (S754_zero false)) = Ok 20)
  /\ (blocks_of (NumFloat c100) = Ok 20 /\ spaces_of (NumFloat c100) = Ok 0)
  /\ (blocks_of (NumFloat (S754_finite false 6685030696878080 (-47))) = Ok 9
      /\ spaces_of (NumFloat (S754_finite false 6685030696878080 (-47)))
         = Ok 11).
Proof.
  intros Hm Hi Hr.
  destruct (progress_counts perc Hr) as (Hb & Hs & Hh).
  split; [exact Hb|]. split; [exact Hs|]. split; [exact Hh|]. split.
  - destruct (spinner_glyph (advance (spindex self))) as [glyph Hg].
    { rewrite advance_mod by lia.
      pose proof (Z.mod_pos_bound (spindex self + 1) 10). lia. }
    exists glyph. split; [exact Hg|].
    intros (Hib & His & Hlim & Hmax). cbn [progress snd].
    pose proof (bar_text_length
                  (repeat_str (bg_blue (u " ")) (exact_floor_fifth perc))
                  (repeat_str (u " ") (exact_ceil_fifth (sub_from_100 perc)))
                  glyph (four_decimals perc) (blue m)) as [Hc Hgap].
    fold (bar_line (exact_floor_fifth perc)
            (exact_ceil_fifth (sub_from_100 perc)) glyph
            (four_decimals perc) (blue m)) in Hc, Hgap.
    apply (progress_body_ok _ _ _ m glyph (four_decimals perc)
             (repeat_str (bg_blue (u " ")) (exact_floor_fifth perc))
             (repeat_str (u " ") (exact_ceil_fifth (sub_from_100 perc)))
             _ _ _ Hm Hb Hs Hh).
    + apply py_repeat_ok; [exact Hib | lia | lia].
    + apply py_repeat_ok; [exact His | lia | lia].
    + exact Hg.
    + unfold allocated.
      fold (bar_line (exact_floor_fifth perc)
              (exact_ceil_fifth (sub_from_100 perc)) glyph
              (four_decimals perc) (blue m)).
      destruct (Z.ltb_spec str_limit
                  (Z.of_nat (length (bar_line (exact_floor_fifth perc)
                     (exact_ceil_fifth (sub_from_100 perc)) glyph
                     (four_decimals perc) (blue m))))); [lia | reflexivity].
  - split; [exact repeat_str_max|].
    repeat split; vm_compute; reflexivity.
Qed.

End ProgressBar.

(** C4 as stated fails.  An [int] too large for a double makes [perc / 5]
    raise [OverflowError], and a NaN makes [math.floor] raise [ValueError]:
    the call clears the line, writes no bar and propagates the exception.
    Near [2 ^ 53] the rounded quotient is already a whole number above the
    exact floor.  For the [float] percent [- 2 ^ -60] the difference
    [100 - perc] rounds to [100.0], so [spaces] is 20 where the ceiling of
    the exact [(100 + 2 ^ -60) / 5] is 21.  And a percent whose arithmetic
    is exact can still ask for more glyphs than the machine has room for:
    at [10 ^ 15] the coloured cells, at [- 10 ^ 15] the spaces, raise
    [MemoryError] after the line was cleared. *)
Lemma progress_huge_percent_raises :
  blocks_of (NumInt (10 ^ 400)) = Raise OverflowError
  /\ snd (progress sample_logger (PStr (u "")) (NumInt (10 ^ 400)))
     = ([Write (13%N :: CLEAR); Flush], Raise OverflowError)
  /\ snd (progress sample_logger (PStr (u "")) (NumFloat S754_nan))
     = ([Write (13%N :: CLEAR); Flush], Raise ValueError)
  /\ blocks_of (NumInt (5 * 2 ^ 51 + 4)) = Ok ((5 * 2 ^ 51 + 4) / 5 + 1)
  /\ spaces_of (NumFloat (S754_finite true (2 ^ 52) (-112))) = Ok 20
  /\ ceil_div (100 * 2 ^ 112 + 2 ^ 52) (5 * 2 ^ 112) = 21
  /\ blocks_of (NumInt (10 ^ 15)) = Ok (2 * 10 ^ 14)
  /\ snd (progress sample_logger (PStr (u "")) (NumInt (10 ^ 15)))
     = ([Write (13%N :: CLEAR); Flush], Raise MemoryError)
  /\ spaces_of (NumInt (- 10 ^ 15)) = Ok (2 * 10 ^ 14 + 20)
  /\ snd (progress sample_logger (PStr (u "")) (NumInt (- 10 ^ 15)))
     = ([Write (13%N :: CLEAR); Flush], Raise MemoryError).
Proof. repeat split; vm_compute; reflexivity. Qed.

Lemma progress_bar_witness :
  _parse (PStr (u "copying")) = Ok (u "copying")
  /\ 0 <= spindex sample_logger <= 9
  /\ in_range (NumInt 47)
  /\ blocks_of (NumInt 47) = Ok 9
  /\ spaces_of (NumInt 47) = Ok 11
  /\ human_of (NumInt 47) = Ok (u "47.0000")
  /\ snd (progress sample_logger (PStr (u "copying")) (NumInt 47))
     = ([Write (13%N :: CLEAR); Flush;
         Write (bar_line 9 11 [10265%N] (u "47.0000") (blue (u "copying")));
         Flush], Ok tt).
Proof.
  assert (Hi : 0 <= spindex sample_logger <= 9) by (simpl; lia).
  assert (Hz : in_range (NumInt 47)) by (simpl; lia).
  split; [reflexivity|]. split; [exact Hi|]. split; [exact Hz|].
  destruct (progress_bar sample_logger (PStr (u "copying")) (u "copying")
              (NumInt 47) eq_refl Hi Hz)
    as (Hb & Hs & Hh & (glyph & Hg & Hfit) & _).
  split; [exact Hb|]. split; [exact Hs|]. split; [exact Hh|].
  assert (Eg : glyph = [10265%N]).
  { vm_compute in Hg. injection Hg as <-. reflexivity. }
  subst glyph. apply Hfit.
  unfold bar_fits, index_sized. repeat split; vm_compute; discriminate.
Defined.

(** ** An omitted [extra] *)

Section OmittedExtra.
Context {colours : Colours}.
Variables (st : Settings) (env : Env) (self : Logger).

(** With [extra] left at [None], the printed line ends in an empty slot,
    and the string handed to loguru ends in the text [None]. *)
Lemma omitted_extra_lines (l : level) (msg d dbg : pyval) (ds ms : pystr)
    (t : Z) :
  threshold st = Ok t -> t <= severity l ->
  decode msg = Ok d -> py_str d = Ok ds -> py_str msg = Ok ms ->
  DEBUG st = Ok dbg ->
  call st env self l msg PNone
  = ((if writes_stream l
      then [Print (prefix_of env self l ++ [10%N] ++ u "> " ++ ds ++ u " "
                   ++ u "")]
      else [])
     ++ (if forwards l && sink_open st env
         then [Guru (sink_method l)
                 (prefix_of env self l ++ u " - " ++ ms ++ u " - "
                  ++ u "None")]
         else []),
     Ok tt).
Proof.
  intros Ht Hle Hd Hds Hms Hdbg.
  rewrite (call_passes _ _ _ _ _ _ _ Ht Hle).
  apply (passing_call_ok st env self l msg PNone d dbg ds ms
           (u "None") (u "")); auto.
Qed.

End OmittedExtra.

(** C6 on a sample call.  [info('hello')] and [warn('hello')] with the
    sink open: the line [warn] prints ends in the empty slot, while both
    strings handed to loguru end in [" - None"]. *)
Theorem omitted_extra_reaches_sink :
  call (sample_settings "LOG" false) sample_env sample_logger
    INFO (PStr (u "hello")) PNone
  = ([Guru guru_info
        (prefix_of sample_env sample_logger INFO ++ u " - hello - None")],
     Ok tt)
  /\ call (sample_settings "LOG" false) sample_env sample_logger
       WARN (PStr (u "hello")) PNone
     = ([Print (prefix_of sample_env sample_logger WARN ++ [10%N]
                ++ u "> hello ");
         Guru guru_warning
           (prefix_of sample_env sample_logger WARN ++ u " - hello - None")],
        Ok tt).
Proof. split; vm_compute; reflexivity. Qed.

(** ** Counterexamples to the claims as stated *)

(** C2 as stated fails.  A passing [warn] with [DEBUG] true prints its line
    and hands nothing to loguru. *)
Lemma warn_under_debug_not_forwarded :
  threshold (sample_settings "LOG" true) = Ok 0
  /\ 0 <= severity WARN
  /\ call (sample_settings "LOG" true) sample_env sample_logger
       WARN (PStr (u "hello")) PNone
     = ([Print (stream_line sample_env sample_logger WARN (u "hello") (u ""))],
        Ok tt)
  /\ sink_events
       (fst (call (sample_settings "LOG" true) sample_env sample_logger
               WARN (PStr (u "hello")) PNone)) = [].
Proof. repeat split; vm_compute; try reflexivity; discriminate. Qed.

(** C7 as stated fails.  From index 0, eleven calls end on index 1, and it
    is ten calls that end on 0 again; from an index outside the frames, 12,
    a call moves to 13 and raises [IndexError]. *)
Lemma eleven_calls_overshoot :
  spindex sample_logger = 0
  /\ spindex (progress_run (default_calls 11) sample_logger) = 1
  /\ spindex (progress_run (default_calls 10) sample_logger) = 0
  /\ spindex (fst (progress {| writing_progress := false; spindex := 12;
                               path_prefix := u "" |}
                     (PStr (u "")) (NumInt 0))) = 13
  /\ snd (snd (progress {| writing_progress := false; spindex := 12;
                           path_prefix := u "" |}
                 (PStr (u "")) (NumInt 0))) = Raise IndexError.
Proof. repeat split; vm_compute; reflexivity. Qed.

(** ** The theorems on sample inputs, continued *)

Lemma routing_witness :
  threshold (sample_settings "LOG" false) = Ok 0
  /\ 0 <= severity WARN
  /\ call (sample_settings "LOG" false) sample_env sample_logger
       WARN (PStr (u "hello")) (PInt 7)
     = ([Print (stream_line sample_env sample_logger WARN (u "hello") (u "7"));
         Guru guru_warning
           (sink_line sample_env sample_logger WARN (u "hello") (u "7"))],
        Ok tt).
Proof.
  assert (Ht : threshold (sample_settings "LOG" false) = Ok 0)
    by (vm_compute; reflexivity).
  assert (Hle : 0 <= severity WARN) by (simpl; lia).
  split; [exact Ht|]. split; [exact Hle|].
  destruct (routing (sample_settings "LOG" false) sample_env sample_logger
              WARN (PStr (u "hello")) (PInt 7) 0 Ht Hle)
    as (_ & _ & _ & _ & Hwarn).
  apply (Hwarn eq_refl (PStr (u "hello")) (u "hello") (u "hello") (u "7")
           (u "7") (PBool false)); vm_compute; reflexivity.
Defined.

Lemma threshold_read_failure_witness :
  CONSOLE_LOG_LEVEL broken_settings = Raise AttributeError
  /\ _check_log_level broken_settings (level_name INFO) = Ok false
  /\ call broken_settings sample_env sample_logger
       ERROR (PStr (u "disk full")) PNone
     = call (with_level broken_settings (Ok (u "WARN"))) sample_env
         sample_logger ERROR (PStr (u "disk full")) PNone.
Proof.
  split; [reflexivity|]. split.
  - apply (threshold_read_failure broken_settings sample_env sample_logger
             INFO PNone PNone AttributeError eq_refl).
  - apply (threshold_read_failure broken_settings sample_env sample_logger
             ERROR (PStr (u "disk full")) PNone AttributeError eq_refl).
Defined.

Lemma unknown_level_raises_witness :
  CONSOLE_LOG_LEVEL (sample_settings "DEBUG" false) = Ok (u "DEBUG")
  /\ call (sample_settings "DEBUG" false) sample_env sample_logger
       ERROR (PStr (u "disk full")) PNone = ([], Raise KeyError).
Proof.
  split; [reflexivity|].
  apply (unknown_level_raises (sample_settings "DEBUG" false) sample_env
           sample_logger ERROR (PStr (u "disk full")) PNone (u "DEBUG")
           eq_refl).
  intros l' E. destruct l'; vm_compute in E; discriminate.
Defined.

Lemma decode_cases_witness :
  py_str (PBytes [x63; x61; x66; xe9]) = Ok (u "b'caf\xe9'")
  /\ decode (PBytes [x63; x61; x66; xe9]) = Ok (PStr [99; 97; 102; 233]%N).
Proof.
  split; [vm_compute; reflexivity|].
  destruct (decode_cases (PBytes [x63; x61; x66; xe9]) (u "b'caf\xe9'")
              ltac:(vm_compute; reflexivity)) as (_ & H & _).
  destruct H as (_ & _ & H & _).
  - intros [E | [E | (s & E & Es)]]; [discriminate | vm_compute in E; discriminate |].
    vm_compute in E. injection E as <-. vm_compute in Es. discriminate.
  - apply (H UnicodeDecodeError); vm_compute; reflexivity.
Defined.

Lemma none_message_printed_witness :
  none_like (PStr (u " NULL "))
  /\ exists rest r,
       call (sample_settings "LOG" false) sample_env sample_logger
         LOG (PStr (u " NULL ")) PNone
       = (Print (prefix_of sample_env sample_logger LOG ++ [10%N] ++ u "> "
                 ++ u "None" ++ u " " ++ u "") :: rest, r).
Proof.
  assert (Hn : none_like (PStr (u " NULL "))).
  { right. right. exists (u " NULL "). split; vm_compute; reflexivity. }
  split; [exact Hn|].
  apply (none_message_printed (sample_settings "LOG" false) sample_env
           sample_logger LOG (PStr (u " NULL ")) PNone 0 (u "")).
  - reflexivity.
  - vm_compute. reflexivity.
  - simpl. lia.
  - exact Hn.
  - reflexivity.
Defined.

Lemma spinner_cycle_witness :
  0 <= spindex sample_logger <= 9
  /\ spindex (progress_run (default_calls 10) sample_logger)
     = spindex sample_logger.
Proof.
  assert (Hi : 0 <= spindex sample_logger <= 9) by (simpl; lia).
  split; [exact Hi|].
  destruct (spinner_cycle sample_logger (default_calls 10) Hi)
    as (_ & _ & H10 & _).
  apply H10. reflexivity.
Defined.

(** ** Further properties *)

(** [buffer] writes its argument as it is and flushes: no filtering, no
    prefix, no newline. *)
Theorem buffer_verbatim (msg : pystr) :
  buffer msg = ([Write msg; Flush], Ok tt).
Proof. reflexivity. Qed.

Lemma rstrip_last (s : pystr) (c : N) :
  is_space c = false -> rstrip (s ++ [c]) = s ++ [c].
Proof.
  intros Hc. unfold rstrip. rewrite rev_app_distr. cbn [rev app lstrip].
  rewrite Hc. cbn [rev]. rewrite rev_involutive. reflexivity.
Qed.

Lemma repr_bytes_not_none_like (bs : pybytes) :
  pystr_eqb (repr_bytes bs) (u "") = false
  /\ pystr_eqb (strip (repr_bytes bs)) (u "NULL") = false.
Proof.
  unfold repr_bytes.
  set (ns := List.map Byte.to_N bs).
  set (q := (if has_byte 39 ns && negb (has_byte 34 ns) then 34 else 39)%N).
  assert (Hq : is_space q = false)
    by (unfold q; destruct (has_byte 39 ns && negb (has_byte 34 ns));
        reflexivity).
  split.
  - apply bool_decide_eq_false. discriminate.
  - unfold strip. cbn [lstrip]. change (is_space 98) with false. cbn match.
    rewrite !app_comm_cons, rstrip_last by exact Hq.
    apply bool_decide_eq_false. discriminate.
Qed.

(** On [bytes], [decode] never answers [None]: the text of a [bytes] object
    is its [repr].  It returns the UTF-8 decoding when the bytes are valid
    UTF-8 and the Latin-1 decoding otherwise; the ASCII attempt is never
    reached.  So [decode(b'')] is [''] and [decode(b'NULL')] is ['NULL']. *)
Theorem decode_bytes (bs : pybytes) :
  decode (PBytes bs)
  = Ok (PStr (match utf8_decode (List.map Byte.to_N bs) with
              | Some s => s
              | None => List.map Byte.to_N bs
              end))
  /\ decode (PBytes []) = Ok (PStr (u ""))
  /\ decode (PBytes [x4e; x55; x4c; x4c]) = Ok (PStr (u "NULL")).
Proof.
  split; [|split; vm_compute; reflexivity].
  destruct (repr_bytes_not_none_like bs) as [H1 H2].
  unfold decode. cbn [py_str]. rewrite H1, H2.
  unfold val_decode, bytes_decode, latin1_decode.
  destruct (utf8_decode (List.map Byte.to_N bs)); reflexivity.
Qed.

(** The index of a logger built by [__init__] stays among the ten frames
    through any sequence of [progress] calls. *)
Theorem spindex_invariant {colours : Colours} {machine : Machine}
    (st : Settings)
    (calls : list (pyval * number)) :
  0 <= spindex (progress_run calls (Logger_init st)) <= 9.
Proof.
  rewrite progress_run_spindex by (simpl; lia).
  pose proof (Z.mod_pos_bound
                (spindex (Logger_init st) + Z.of_nat (length calls)) 10).
  lia.
Qed.

(** With fewer than two frames on the stack, the position is the
    placeholder. *)
Theorem code_position_placeholder (self : Logger) (env : Env) :
  (length (frames env) < 2)%nat -> _get_code_position self env = shrug.
Proof.
  intros H. unfold _get_code_position.
  rewrite (proj2 (lookup_ge_None (frames env) 1)); [reflexivity | lia].
Qed.

Lemma code_position_placeholder_witness :
  (length (frames {| USE_GURU := false; now := u "0:00:00";
                     frames := [ {| filename := u "<stdin>"; lineno := 1 |} ];
                     cwd := u "/" |}) < 2)%nat
  /\ _get_code_position sample_logger
       {| USE_GURU := false; now := u "0:00:00";
          frames := [ {| filename := u "<stdin>"; lineno := 1 |} ];
          cwd := u "/" |} = shrug.
Proof.
  assert (H : (length (frames {| USE_GURU := false; now := u "0:00:00";
                     frames := [ {| filename := u "<stdin>"; lineno := 1 |} ];
                     cwd := u "/" |}) < 2)%nat) by (simpl; lia).
  split; [exact H|].
  apply (code_position_placeholder sample_logger _ H).
Defined.

(** ** The level check on its own *)

Lemma threshold_effective (st : Settings) :
  threshold st = LOG_LEVELS_getitem (effective_level st).
Proof.
  unfold threshold, effective_level.
  destruct (CONSOLE_LOG_LEVEL st); reflexivity.
Qed.

(** [_check_log_level] in full.  With an effective level name among the six
    it answers whether the called level is at least as severe, so a level
    that passes lets every more severe level pass; it raises [KeyError] when
    the effective name is none of the six, whatever the called name, and
    also when the called name is none of the six. *)
Theorem check_log_level_cases (st : Settings) (s : pystr) :
  (forall t l, effective_level st = level_name t ->
     _check_log_level st (level_name l) = Ok (severity t <=? severity l))
  /\ (forall l l', severity l <= severity l' ->
        _check_log_level st (level_name l) = Ok true ->
        _check_log_level st (level_name l') = Ok true)
  /\ ((forall t, effective_level st <> level_name t) ->
      _check_log_level st s = Raise KeyError)
  /\ (forall t, effective_level st = level_name t ->
        (forall l, s <> level_name l) ->
        _check_log_level st s = Raise KeyError).
Proof.
  repeat split.
  - intros t l Ht. apply check_threshold.
    rewrite threshold_effective, Ht. apply getitem_level_name.
  - intros l l' Hle Hl.
    destruct (threshold st) as [t|e] eqn:Ht.
    + rewrite (check_threshold _ l _ Ht) in Hl.
      rewrite (check_threshold _ l' _ Ht).
      injection Hl as Hl. f_equal.
      apply Z.leb_le. apply Z.leb_le in Hl. lia.
    + rewrite (check_raises _ _ _ Ht) in Hl. discriminate.
  - intros Hne. apply check_raises.
    rewrite threshold_effective. apply getitem_unknown. exact Hne.
  - intros t Ht Hs. unfold _check_log_level.
    fold (threshold st) in *.
    replace (try_except (CONSOLE_LOG_LEVEL st) (Ok (u "WARN")))
      with (@Ok pystr (effective_level st))
      by (unfold effective_level; destruct (CONSOLE_LOG_LEVEL st); reflexivity).
    cbn [res_bind]. rewrite Ht, getitem_level_name. cbn [res_bind].
    rewrite (getitem_unknown s Hs). reflexivity.
Qed.

(** ** What a leveled call can leave behind *)

Section TraceShape.
Context {colours : Colours}.
Variables (st : Settings) (env : Env) (self : Logger).

(** Whatever the settings and the arguments, and whether or not it raises,
    a leveled call leaves one of four traces: nothing, one printed line
    ([log] and [warn] only), one loguru call by the method of its level
    (never [log]), or a printed line followed by a loguru call ([warn]
    only).  It never writes to the terminal other than by that one
    [print]. *)
Theorem call_trace_shape (l : level) (msg extra : pyval) :
  fst (call st env self l msg extra) = []
  \/ (exists line,
        fst (call st env self l msg extra) = [Print line]
        /\ writes_stream l = true)
  \/ (exists s,
        fst (call st env self l msg extra) = [Guru (sink_method l) s]
        /\ forwards l = true)
  \/ (exists line s,
        fst (call st env self l msg extra)
        = [Print line; Guru (sink_method l) s]
        /\ l = WARN).
Proof.
  rewrite call_unfold.
  destruct (_check_log_level st (level_name l)) as [[|]|e];
    [rewrite bind_lift_ok; cbn [negb] | left; reflexivity ..].
  unfold passing_call. rewrite fst_bind.
  destruct (writes_stream l) eqn:Hw.
  - destruct (output_shape (prefix_of env self l) msg extra)
      as [[line E] | [e E]]; rewrite E; cbn [fst snd app].
    + destruct (forwards l) eqn:Hf.
      * destruct (forward_shape st env self l msg extra)
          as [(s & r & E') | E']; rewrite E'; cbn [fst].
        -- right. right. right. exists line, s. split; [reflexivity|].
           destruct l; try discriminate; reflexivity.
        -- right. left. exists line. split; reflexivity.
      * right. left. exists line. split; reflexivity.
    + left. reflexivity.
  - cbn [ret fst snd app]. destruct (forwards l) eqn:Hf.
    + destruct (forward_shape st env self l msg extra)
        as [(s & r & E') | E']; rewrite E'; cbn [fst].
      * right. right. left. exists s. split; reflexivity.
      * left. reflexivity.
    + left. reflexivity.
Qed.

(** Without loguru, [info], [success], [template] and [error] do nothing at
    all, also when they pass the level check and whatever their arguments:
    the message is not even converted to text. *)
Theorem silent_without_loguru (l : level) (msg extra : pyval) (t : Z) :
  USE_GURU env = false -> writes_stream l = false ->
  threshold st = Ok t ->
  call st env self l msg extra = ([], Ok tt).
Proof.
  intros Hg Hw Ht.
  destruct (Z_lt_le_dec (severity l) t) as [Hlt | Hle].
  - apply (call_filtered _ _ _ _ _ _ _ Ht Hlt).
  - rewrite (call_passes _ _ _ _ _ _ _ Ht Hle).
    unfold passing_call, forward_step. rewrite Hw, bind_ret_l.
    rewrite guru_enabled_eq, Hg.
    destruct (forwards l); reflexivity.
Qed.

(** A falsy [extra] (None, False, 0, the empty string, empty bytes) leaves
    the last slot of the printed line empty: [log('n', 0)] does not show the
    zero. *)
Theorem falsy_extra_dropped (l : level) (msg extra d : pyval) (ds : pystr)
    (t : Z) :
  writes_stream l = true ->
  threshold st = Ok t -> t <= severity l ->
  py_truthy extra = false ->
  decode msg = Ok d -> py_str d = Ok ds ->
  exists rest r,
    call st env self l msg extra
    = (Print (prefix_of env self l ++ [10%N] ++ u "> " ++ ds ++ u " ")
       :: rest, r).
Proof.
  intros Hw Ht Hle Hx Hd Hds.
  rewrite (call_passes _ _ _ _ _ _ _ Ht Hle). unfold passing_call.
  rewrite Hw.
  assert (Hxs : py_str (extra_shown extra) = Ok (u ""))
    by (unfold extra_shown; rewrite Hx; reflexivity).
  rewrite (output_ok _ _ _ d ds (u "") Hd Hds Hxs).
  change ([Print ?x], Ok tt) with (tell (Print x)).
  rewrite bind_tell.
  replace (ds ++ u " " ++ u "") with (ds ++ u " ")
    by (change (u "") with (@nil N); rewrite app_nil_r; reflexivity).
  eauto.
Qed.

End TraceShape.

(** ** More on [decode] *)

Lemma decode_bytes_value (bs : pybytes) :
  decode (PBytes bs)
  = Ok (PStr (match utf8_decode (List.map Byte.to_N bs) with
              | Some s => s
              | None => List.map Byte.to_N bs
              end)).
Proof.
  destruct (repr_bytes_not_none_like bs) as [H1 H2].
  unfold decode. cbn [py_str]. rewrite H1, H2.
  unfold val_decode, bytes_decode, latin1_decode.
  destruct (utf8_decode (List.map Byte.to_N bs)); reflexivity.
Qed.

(** [decode] raises exactly when the value is not [None] and [str(val)]
    raises, with that exception: a failing or missing [val.decode] never
    gets out. *)
Theorem decode_raises_iff (val : pyval) (e : exn) :
  decode val = Raise e <-> (val <> PNone /\ py_str val = Raise e).
Proof.
  assert (Hok : forall v s, v <> PNone -> py_str v = Ok s ->
                exists r, decode v = Ok r).
  { intros v s Hv Hs.
    destruct v; [congruence | ..]; unfold decode; rewrite Hs;
      (destruct (pystr_eqb s (u "")); [eauto|]);
      (destruct (pystr_eqb (strip s) (u "NULL")); [eauto|]);
      rewrite try_chain; eauto. }
  split.
  - intros H.
    destruct val as [| [|] | z | s | bs | [s|e'] o_bool o_decode];
      [discriminate | ..]; (split; [discriminate|]);
      try (match type of H with
           | decode ?v = _ =>
               destruct (Hok v _ ltac:(discriminate) eq_refl) as [r Hr];
               rewrite Hr in H; discriminate
           end).
    unfold decode in H. cbn [py_str] in *. congruence.
  - intros [Hv Hs]. destruct val; [congruence | ..];
      unfold decode; rewrite Hs; reflexivity.
Qed.

Lemma utf8_decode_ascii (ns : list N) :
  forallb (fun b => (b <? 128)%N) ns = true -> utf8_decode ns = Some ns.
Proof.
  induction ns as [| b t IH]; [reflexivity|].
  cbn [forallb]. intros H. apply andb_true_iff in H as [Hb Ht].
  cbn [utf8_decode]. rewrite Hb, (IH Ht). reflexivity.
Qed.

(** Bytes that are all below 128 decode to the text with the same code
    points: [decode(b'hello')] is ['hello']. *)
Theorem decode_ascii_bytes (bs : pybytes) :
  forallb (fun b => (b <? 128)%N) (List.map Byte.to_N bs) = true ->
  decode (PBytes bs) = Ok (PStr (List.map Byte.to_N bs)).
Proof.
  intros H. rewrite decode_bytes_value, (utf8_decode_ascii _ H). reflexivity.
Qed.

(** ** Message text on the two channels *)

Section BytesMessage.
Context {colours : Colours}.
Variables (st : Settings) (env : Env) (self : Logger).

(** A passing [warn] with a [bytes] message and the sink open shows the
    message in two forms: the printed line holds the decoded text, the
    string handed to loguru holds the [repr], [b'...']. *)
Theorem warn_bytes_message (bs : pybytes) (extra : pyval) (es : pystr)
    (t : Z) :
  threshold st = Ok t -> t <= severity WARN ->
  sink_open st env = true ->
  py_str extra = Ok es ->
  exists xs,
    py_str (extra_shown extra) = Ok xs
    /\ call st env self WARN (PBytes bs) extra
       = ([Print (stream_line env self WARN
                    (match utf8_decode (List.map Byte.to_N bs) with
                     | Some s => s
                     | None => List.map Byte.to_N bs
                     end) xs);
           Guru guru_warning (sink_line env self WARN (repr_bytes bs) es)],
          Ok tt).
Proof.
  intros Ht Hle Ho Hes.
  destruct (extra_shown_text _ _ Hes) as [xs Hxs].
  exists xs. split; [exact Hxs|].
  assert (Hdbg : exists dbg, DEBUG st = Ok dbg).
  { unfold sink_open in Ho. destruct (DEBUG st) as [dbg|]; [eauto|].
    rewrite andb_false_r in Ho. discriminate. }
  destruct Hdbg as [dbg Hdbg].
  rewrite (call_passes _ _ _ _ _ _ _ Ht Hle).
  rewrite (passing_call_ok st env self WARN (PBytes bs) extra _ dbg _
             (repr_bytes bs) es xs (decode_bytes_value bs) eq_refl eq_refl
             Hes Hxs Hdbg).
  cbn [writes_stream forwards andb]. rewrite Ho. reflexivity.
Qed.

End BytesMessage.

(** ** The caller's position *)

Lemma is_prefix_app (old t : pystr) : is_prefix old (old ++ t) = true.
Proof.
  induction old as [| a old IH]; [reflexivity|].
  cbn [app is_prefix]. rewrite N.eqb_refl, IH. reflexivity.
Qed.

Lemma replace_from_skip (a old new t : pystr) :
  replace_from (length a) old new (a ++ t) = replace_from O old new t.
Proof.
  induction a as [| c a IH]; [reflexivity|].
  cbn [length app replace_from]. exact IH.
Qed.

Lemma replace_from_absent (old new s : pystr) :
  occurs old s = false -> replace_from O old new s = s.
Proof.
  induction s as [| c t IH]; [reflexivity|].
  cbn [occurs replace_from]. intros H.
  apply orb_false_iff in H as [Hp Ht].
  rewrite Hp, (IH Ht). reflexivity.
Qed.

Lemma replace_leading (old new rel : pystr) :
  old <> [] -> occurs old rel = false ->
  replace (old ++ rel) old new = new ++ rel.
Proof.
  intros Hne Hrel. destruct old as [| a old]; [congruence|].
  unfold replace. cbn [app replace_from].
  change (a :: old ++ rel) with ((a :: old) ++ rel).
  rewrite is_prefix_app. cbn [length Nat.pred].
  rewrite replace_from_skip, (replace_from_absent _ _ _ Hrel). reflexivity.
Qed.

Lemma replace_absent (old new s : pystr) :
  old <> [] -> occurs old s = false -> replace s old new = s.
Proof.
  intros Hne Hs. destruct old as [| a old]; [congruence|].
  unfold replace. apply replace_from_absent. exact Hs.
Qed.

(** With the caller's frame on the stack and a working directory that is
    not the empty string: a file under the working directory is shown by its
    path relative to it, behind the configured prefix and before the line
    number; a file whose path does not contain the working directory is
    shown by its whole path. *)
Theorem code_position_relative (self : Logger) (env : Env) (f : FrameInfo)
    (rel : pystr) :
  frames env !! 1%nat = Some f -> cwd env <> [] ->
  occurs (cwd env) rel = false ->
  (filename f = cwd env ++ rel ->
   _get_code_position self env
   = path_prefix self ++ rel ++ u ":" ++ str_of_Z (lineno f))
  /\ (filename f = rel ->
      _get_code_position self env
      = path_prefix self ++ rel ++ u ":" ++ str_of_Z (lineno f)).
Proof.
  intros Hf Hne Hrel. unfold _get_code_position. rewrite Hf. split; intros ->.
  - rewrite (replace_leading _ _ _ Hne Hrel). reflexivity.
  - rewrite (replace_absent _ _ _ Hne Hrel). reflexivity.
Qed.

(** ** More on [progress] *)

Section ProgressShape.
Context {colours : Colours} {machine : Machine}.

(** Whatever its arguments, a [progress] call does one of three things: it
    raises before writing when the message has no text; it clears the line,
    flushes and then raises (a percent it cannot compute with, or an index
    outside the frames); or it clears the line, flushes, writes one bar,
    flushes and returns.  It never prints a line of its own and never calls
    loguru, and only the complete call sets [writing_progress]. *)
Theorem progress_trace_shape (self : Logger) (msg : pyval) (perc : number) :
  ((exists e, _parse msg = Raise e
              /\ snd (progress self msg perc) = ([], Raise e))
   \/ (exists e, snd (progress self msg perc)
                 = ([Write clear_line; Flush], Raise e))
   \/ (exists line,
         snd (progress self msg perc)
         = ([Write clear_line; Flush; Write line; Flush], Ok tt)
         /\ writing_progress (fst (progress self msg perc)) = true))
  /\ sink_events (fst (snd (progress self msg perc))) = []
  /\ List.filter is_print (fst (snd (progress self msg perc))) = []
  /\ (writing_progress (fst (progress self msg perc)) = true ->
      writing_progress self = true
      \/ snd (snd (progress self msg perc)) = Ok tt).
Proof.
  unfold progress, clear_line. cbn [fst snd].
  set (i := advance (spindex self)).
  unfold progress_body.
  destruct (_parse msg) as [m|e].
  2:{ split; [left; exists e; split; reflexivity|].
      repeat split. cbn. auto. }
  rewrite bind_lift_ok, !bind_tell.
  destruct (blocks_of perc) as [b|e];
    [rewrite bind_lift_ok
    | split; [right; left; exists e; reflexivity | repeat split; cbn; auto]].
  destruct (spaces_of perc) as [s|e];
    [rewrite bind_lift_ok
    | split; [right; left; exists e; reflexivity | repeat split; cbn; auto]].
  destruct (human_of perc) as [h|e];
    [rewrite bind_lift_ok
    | split; [right; left; exists e; reflexivity | repeat split; cbn; auto]].
  destruct (py_repeat (bg_blue (u " ")) b) as [cells|e];
    [rewrite bind_lift_ok
    | split; [right; left; exists e; reflexivity | repeat split; cbn; auto]].
  destruct (py_repeat (u " ") s) as [gap|e];
    [rewrite bind_lift_ok
    | split; [right; left; exists e; reflexivity | repeat split; cbn; auto]].
  destruct (py_getitem spinner_frames i) as [g|e];
    [rewrite bind_lift_ok
    | split; [right; left; exists e; reflexivity | repeat split; cbn; auto]].
  destruct (allocated (bar_text cells gap g h (blue m))) as [line|e];
    [rewrite bind_lift_ok
    | split; [right; left; exists e; reflexivity | repeat split; cbn; auto]].
  split; [right; right; eexists; split; reflexivity|].
  repeat split. cbn. auto.
Qed.

(** [progress] never touches [path_prefix] and never clears
    [writing_progress], over any sequence of calls. *)
Theorem progress_keeps_fields (calls : list (pyval * number)) (self : Logger) :
  path_prefix (progress_run calls self) = path_prefix self
  /\ (writing_progress self = true ->
      writing_progress (progress_run calls self) = true).
Proof.
  revert self. induction calls as [| [msg perc] rest IH]; intros self.
  - split; [reflexivity | auto].
  - cbn [progress_run]. destruct (IH (fst (progress self msg perc))) as [Hp Hw].
    split; [rewrite Hp; reflexivity|].
    intros H. apply Hw. cbn [progress fst writing_progress].
    rewrite H. destruct (snd _); reflexivity.
Qed.

(** The index of a logger built by [__init__] counts the [progress] calls
    made so far modulo ten, so the frame drawn by the n-th call is frame
    [n mod 10]: frame 1 first, frame 0 on the tenth call. *)
Theorem spindex_counts_calls (st : Settings) (calls : list (pyval * number)) :
  spindex (progress_run calls (Logger_init st))
  = Z.of_nat (length calls) mod 10.
Proof.
  rewrite progress_run_spindex by (simpl; lia). reflexivity.
Qed.

End ProgressShape.

(** For an [int] percent below [2 ^ 53] in size the two counts always add up
    to 20, and [blocks] never decreases when the percent grows; for a
    percent from 0 to 100 both counts are between 0 and 20, so the bar
    between the brackets is 20 cells wide: [blocks] coloured cells and then
    [spaces] spaces. *)
Theorem bar_cells (z z' : Z) :
  - 2 ^ 53 + 100 < z < 2 ^ 53 ->
  - 2 ^ 53 + 100 < z' < 2 ^ 53 ->
  exists b s b',
    blocks_of (NumInt z) = Ok b /\ spaces_of (NumInt z) = Ok s
    /\ blocks_of (NumInt z') = Ok b'
    /\ b + s = 20
    /\ (z <= z' -> b <= b')
    /\ (0 <= z <= 100 ->
        0 <= b <= 20 /\ 0 <= s <= 20
        /\ length (repeat_str (u " ") s) = Z.to_nat s
        /\ (Z.to_nat b + Z.to_nat s = 20)%nat).
Proof.
  intros Hz Hz'.
  exists (z / 5), (ceil_div (100 - z) 5), (z' / 5).
  rewrite !blocks_of_int, spaces_of_int by lia.
  assert (Hs : ceil_div (100 - z) 5 = 20 - z / 5).
  { unfold ceil_div. replace (- (100 - z)) with (z + (-20) * 5) by lia.
    rewrite Z.div_add by lia. lia. }
  rewrite Hs.
  repeat split; try lia.
  - intros Hle. apply Z.div_le_mono; lia.
  - assert (0 <= z / 5) by (apply Z.div_pos; lia). lia.
  - assert (z / 5 <= 100 / 5) by (apply Z.div_le_mono; lia).
    change (100 / 5) with 20 in *. lia.
  - assert (z / 5 <= 100 / 5) by (apply Z.div_le_mono; lia).
    change (100 / 5) with 20 in *. lia.
  - assert (0 <= z / 5) by (apply Z.div_pos; lia). lia.
  - rewrite length_repeat_str. change (length (u " ")) with 1%nat. lia.
  - assert (Hb0 : 0 <= z / 5) by (apply Z.div_pos; lia).
    assert (Hb20 : z / 5 <= 100 / 5) by (apply Z.div_le_mono; lia).
    change (100 / 5) with 20 in *. lia.
Qed.

(** ** The further properties on sample inputs *)

Lemma silent_without_loguru_witness :
  USE_GURU sample_env_no_guru = false
  /\ writes_stream ERROR = false
  /\ threshold (sample_settings "LOG" false) = Ok 0
  /\ call (sample_settings "LOG" false) sample_env_no_guru sample_logger
       ERROR (PObj (Raise RuntimeError) true None) PNone = ([], Ok tt).
Proof.
  assert (Ht : threshold (sample_settings "LOG" false) = Ok 0)
    by (vm_compute; reflexivity).
  split; [reflexivity|]. split; [reflexivity|]. split; [exact Ht|].
  apply (silent_without_loguru (sample_settings "LOG" false)
           sample_env_no_guru sample_logger ERROR
           (PObj (Raise RuntimeError) true None) PNone 0 eq_refl eq_refl Ht).
Defined.

Lemma falsy_extra_dropped_witness :
  py_truthy (PInt 0) = false
  /\ exists rest r,
       call (sample_settings "LOG" false) sample_env sample_logger
         LOG (PStr (u "retries")) (PInt 0)
       = (Print (prefix_of sample_env sample_logger LOG ++ [10%N] ++ u "> "
                 ++ u "retries" ++ u " ") :: rest, r).
Proof.
  split; [reflexivity|].
  apply (falsy_extra_dropped (sample_settings "LOG" false) sample_env
           sample_logger LOG (PStr (u "retries")) (PInt 0)
           (PStr (u "retries")) (u "retries") 0).
  - reflexivity.
  - vm_compute. reflexivity.
  - simpl. lia.
  - reflexivity.
  - vm_compute. reflexivity.
  - reflexivity.
Defined.

Lemma decode_ascii_bytes_witness :
  forallb (fun b => (b <? 128)%N)
    (List.map Byte.to_N [x68; x65; x6c; x6c; x6f]) = true
  /\ decode (PBytes [x68; x65; x6c; x6c; x6f]) = Ok (PStr (u "hello")).
Proof.
  split; [reflexivity|].
  apply (decode_ascii_bytes [x68; x65; x6c; x6c; x6f] eq_refl).
Defined.

Lemma warn_bytes_message_witness :
  sink_open (sample_settings "LOG" false) sample_env = true
  /\ exists xs,
       py_str (extra_shown PNone) = Ok xs
       /\ call (sample_settings "LOG" false) sample_env sample_logger
            WARN (PBytes [x63; x61; x66; xc3; xa9]) PNone
          = ([Print (stream_line sample_env sample_logger WARN
                       [99; 97; 102; 233]%N xs);
              Guru guru_warning
                (sink_line sample_env sample_logger WARN
                   (u "b'caf\xc3\xa9'") (u "None"))],
             Ok tt).
Proof.
  split; [reflexivity|].
  apply (warn_bytes_message (sample_settings "LOG" false) sample_env
           sample_logger [x63; x61; x66; xc3; xa9] PNone (u "None") 0).
  - vm_compute. reflexivity.
  - simpl. lia.
  - reflexivity.
  - reflexivity.
Defined.

Lemma code_position_relative_witness :
  occurs (cwd sample_env) (u "/views.py") = false
  /\ _get_code_position sample_logger sample_env = u "app/views.py:12".
Proof.
  split; [reflexivity|].
  apply (proj1 (code_position_relative sample_logger sample_env
                  {| filename := u "/srv/app/views.py"; lineno := 12 |}
                  (u "/views.py") eq_refl ltac:(discriminate) eq_refl)).
  reflexivity.
Defined.

Lemma bar_cells_witness :
  - 2 ^ 53 + 100 < 47 < 2 ^ 53
  /\ exists b s b',
       blocks_of (NumInt 47) = Ok b /\ spaces_of (NumInt 47) = Ok s
       /\ blocks_of (NumInt 50) = Ok b'
       /\ b + s = 20.
Proof.
  assert (H47 : - 2 ^ 53 + 100 < 47 < 2 ^ 53) by lia.
  assert (H50 : - 2 ^ 53 + 100 < 50 < 2 ^ 53) by lia.
  split; [exact H47|].
  destruct (bar_cells 47 50 H47 H50) as (b & s & b' & Hb & Hs & Hb' & Hsum & _).
  exists b, s, b'. repeat split; assumption.
Defined.

(** ** A failing read of [DEBUG] *)

Section DebugRead.
Context {colours : Colours}.
Variables (st : Settings) (env : Env) (self : Logger).

(** Unlike the level, a failing read of [settings.DEBUG] is not recovered:
    with loguru present, every passing call of a forwarding level raises
    that exception, and [warn] has already printed its line when it does. *)
Theorem debug_read_failure (l : level) (msg extra d : pyval)
    (ds xs : pystr) (t : Z) (e : exn) :
  threshold st = Ok t -> t <= severity l ->
  forwards l = true ->
  USE_GURU env = true -> DEBUG st = Raise e ->
  decode msg = Ok d -> py_str d = Ok ds ->
  py_str (extra_shown extra) = Ok xs ->
  call st env self l msg extra
  = ((if writes_stream l then [Print (stream_line env self l ds xs)] else []),
     Raise e).
Proof.
  intros Ht Hle Hf Hg He Hd Hds Hxs.
  rewrite (call_passes _ _ _ _ _ _ _ Ht Hle).
  unfold passing_call, forward_step. rewrite Hf.
  rewrite guru_enabled_eq, Hg, He.
  destruct (writes_stream l).
  - rewrite (output_ok _ _ _ d ds xs Hd Hds Hxs). reflexivity.
  - rewrite bind_ret_l. reflexivity.
Qed.

End DebugRead.

Lemma debug_read_failure_witness :
  DEBUG (with_debug (sample_settings "LOG" false) (Raise AttributeError))
  = Raise AttributeError
  /\ call (with_debug (sample_settings "LOG" false) (Raise AttributeError))
       sample_env sample_logger WARN (PStr (u "hello")) PNone
     = ([Print (stream_line sample_env sample_logger WARN (u "hello") (u ""))],
        Raise AttributeError).
Proof.
  split; [reflexivity|].
  apply (debug_read_failure
           (with_debug (sample_settings "LOG" false) (Raise AttributeError))
           sample_env sample_logger WARN (PStr (u "hello")) PNone
           (PStr (u "hello")) (u "hello") (u "") 0 AttributeError).
  - vm_compute. reflexivity.
  - simpl. lia.
  - reflexivity.
  - reflexivity.
  - reflexivity.
  - vm_compute. reflexivity.
  - reflexivity.
  - reflexivity.
Defined.
